(** * Sunainscent backend: authentication and admin access control

    A shallow embedding of [utils/auth.py], [config/settings.py],
    [validation/user_models.py] and of the handlers of [routes/auth.py] and
    [routes/admin.py] that the access-control properties speak about.

    Python values that travel through dictionaries (token claims, MongoDB
    documents) are a small inductive type; dictionaries with string keys are
    [gmap string pyval]; a function that may raise returns a [result].  The
    third-party libraries (python-jose, passlib, pydantic) are not part of
    the repository: inside [Section Auth] they are variables, and whatever a
    proof needs to know about them is a named hypothesis. *)

From Stdlib Require Import ZArith QArith Ascii String List.
From stdpp Require Import base option strings list gmap.

Set Warnings "-register-all".
#[local] Open Scope string_scope.
#[local] Open Scope Z_scope.

(** ** Python values *)

(** [datetime] and [timedelta] have microsecond resolution; both are a number
    of microseconds (since the epoch for a naive UTC [datetime]). *)
Definition datetime := Z.
Definition timedelta := Z.

Inductive pyval : Type :=
| PNone
| PBool (b : bool)
| PInt (z : Z)
| PFloat (q : Q)
| PStr (s : string)
| PDatetime (t : datetime)
| PObjectId (hex : string)
| PList (l : list pyval)
| PDict (d : list (string * pyval)).

(** Python's truth value testing ([bool(v)], [not v], [if v:]). *)
Definition truthy (v : pyval) : bool :=
  match v with
  | PNone => false
  | PBool b => b
  | PInt z => negb (z =? 0)
  | PFloat q => negb (Qnum q =? 0)
  | PStr s => negb (String.eqb s "")
  | PDatetime _ => true
  | PObjectId _ => true
  | PList l => match l with [] => false | _ :: _ => true end
  | PDict d => match d with [] => false | _ :: _ => true end
  end.

(** [timedelta.__bool__]: a duration is falsy exactly when it is zero. *)
Definition timedelta_truthy (d : timedelta) : bool := negb (d =? 0).

(** [timedelta(minutes=m)]. *)
Definition timedelta_minutes (m : Z) : timedelta := m * 60 * 1000000.

(** [d.get(k)]: the value under [k], [None] when the key is missing. *)
Definition dict_get (d : gmap string pyval) (k : string) : pyval :=
  default PNone (d !! k).

(** [d.get(k, dflt)]. *)
Definition dict_get_default (d : gmap string pyval) (k : string) (dflt : pyval) : pyval :=
  default dflt (d !! k).

(** [v is None]. *)
Definition is_None (v : pyval) : bool :=
  match v with PNone => true | _ => false end.

(** [v == s] where [s] is the result of [os.getenv]: a [str] or [None]. *)
Definition eq_getenv (v : pyval) (s : option string) : bool :=
  match v, s with
  | PStr a, Some b => String.eqb a b
  | PNone, None => true
  | _, _ => false
  end.

(** ** Exceptions and results *)

(** [fastapi.HTTPException(status_code, detail, headers)]. *)
Record HTTPException := mkHTTPException {
  status_code : Z;
  detail : string;
  headers : list (string * string)
}.

Definition HTTP_400_BAD_REQUEST : Z := 400.
Definition HTTP_401_UNAUTHORIZED : Z := 401.
Definition HTTP_403_FORBIDDEN : Z := 403.

(** What a call may raise: an [HTTPException] built by the handlers, or an
    exception of a library that no handler catches (named by its class). *)
Inductive exn : Type :=
| EHTTP (e : HTTPException)
| ELib (cls : string).

Inductive result (A : Type) : Type :=
| Ok (a : A)
| Raise (e : exn).
Arguments Ok {A} a.
Arguments Raise {A} e.

#[global] Instance result_ret : MRet result := fun A a => Ok a.
#[global] Instance result_bind : MBind result := fun A B f m =>
  match m with Ok a => f a | Raise e => Raise e end.

(** The error kinds of the specification, read off the status code. *)
Inductive error_kind := Unauthorized | Forbidden | OtherKind.

Definition kind_of (e : exn) : error_kind :=
  match e with
  | EHTTP h =>
      if status_code h =? HTTP_401_UNAUTHORIZED then Unauthorized
      else if status_code h =? HTTP_403_FORBIDDEN then Forbidden
      else OtherKind
  | ELib _ => OtherKind
  end.

Definition status_code_of (e : exn) : option Z :=
  match e with EHTTP h => Some (status_code h) | ELib _ => None end.

Definition detail_of (e : exn) : option string :=
  match e with EHTTP h => Some (detail h) | ELib _ => None end.

Definition headers_of (e : exn) : option (list (string * string)) :=
  match e with EHTTP h => Some (headers h) | ELib _ => None end.

Definition fails_with {A} (r : result A) (k : error_kind) : Prop :=
  ∃ e, r = Raise e ∧ kind_of e = k.

Definition succeeds {A} (r : result A) : Prop := ∃ a, r = Ok a.

(** ** [config/settings.py] *)

Record Settings := mkSettings {
  mongodb_url : string;
  jwt_secret_key : string;
  jwt_algorithm : string;
  jwt_expiration_time : Z;   (* minutes *)
  api_v1_str : string
}.

(** The field defaults of [Settings], what [get_settings()] returns when the
    environment sets none of the variables. *)
Definition Settings_defaults : Settings :=
  {| mongodb_url := "";
     jwt_secret_key := "";
     jwt_algorithm := "HS256";
     jwt_expiration_time := 1440;
     api_v1_str := "/api/v1" |}.

(** ** [validation/user_models.py] *)

Record UserCreate := mkUserCreate {
  uc_email : string;
  uc_password : string;
  uc_first_name : string;
  uc_phone : string
}.

Record UserLogin := mkUserLogin {
  ul_email : string;
  ul_password : string
}.

Record UserResponse := mkUserResponse {
  ur_id : option string;
  ur_email : string;
  ur_first_name : string;
  ur_phone : string;
  ur_created_at : datetime;
  ur_is_admin : option bool
}.

Record UserInDB := mkUserInDB {
  u_id : option string;
  u_email : string;
  u_first_name : string;
  u_phone : string;
  u_hashed_password : string;
  u_created_at : datetime;
  u_is_admin : option bool
}.

Record Token (token : Type) := mkToken {
  access_token : token;
  token_type : string
}.
Arguments mkToken {token}.
Arguments access_token {token}.
Arguments token_type {token}.

Record TokenData := mkTokenData { td_email : option string }.

(** [user_data.is_admin = b]: attribute assignment on the model. *)
Definition set_is_admin (u : UserInDB) (b : bool) : UserInDB :=
  {| u_id := u_id u; u_email := u_email u; u_first_name := u_first_name u;
     u_phone := u_phone u; u_hashed_password := u_hashed_password u;
     u_created_at := u_created_at u; u_is_admin := Some b |}.

(** Truth value of an [Optional[bool]] attribute ([not current_user.is_admin]). *)
Definition optbool_truthy (o : option bool) : bool := default false o.

(** ** The [users] collection

    A collection is the list of its documents in insertion order; a document
    is a dictionary.  Only [db.users] is read or written by the code below. *)

Record database := mkDatabase { users : list (gmap string pyval) }.

(** A query [{k: s}] with a string [s] selects the documents whose field [k]
    is [s], or is an array with [s] among its elements. *)
Definition str_elem (s : string) (v : pyval) : bool :=
  match v with PStr a => String.eqb a s | _ => false end.

Definition field_matches (k s : string) (d : gmap string pyval) : bool :=
  match d !! k with
  | Some (PList l) => existsb (str_elem s) l
  | Some v => str_elem s v
  | None => false
  end.

Definition has_id (oid : string) (d : gmap string pyval) : bool :=
  match d !! "_id" with
  | Some (PObjectId h) => String.eqb h oid
  | _ => false
  end.

(** A query [{k: None}] selects the documents whose field [k] is null or
    missing. *)
Definition field_null (k : string) (d : gmap string pyval) : bool :=
  match d !! k with
  | Some PNone | None => true
  | Some _ => false
  end.

(** [db.users.find_one({"email": e})] for [e] a [str] or [None]. *)
Definition find_one_email (db : database) (e : option string) : option (gmap string pyval) :=
  match e with
  | Some e => List.find (field_matches "email" e) (users db)
  | None => List.find (field_null "email") (users db)
  end.

(** [db.users.find_one({"_id": oid})]. *)
Definition find_one_id (db : database) (oid : string) : option (gmap string pyval) :=
  List.find (has_id oid) (users db).

(** A [datetime] is stored with millisecond resolution. *)
Definition bson_datetime (t : datetime) : datetime := t / 1000 * 1000.

Definition to_bson (v : pyval) : pyval :=
  match v with
  | PDatetime t => PDatetime (bson_datetime t)
  | _ => v
  end.

(** [db.users.insert_one(doc)] for a document without [_id]: the driver adds
    the identifier [oid] it generated and the fields are stored as BSON; the
    unique index on [_id] refuses a duplicate. *)
Definition insert_one (oid : string) (doc : gmap string pyval) (db : database)
  : result (string * database) :=
  if existsb (has_id oid) (users db) then Raise (ELib "DuplicateKeyError")
  else Ok (oid, {| users := users db
                            ++ [<["_id" := PObjectId oid]> (to_bson <$> doc)] |}).

(** [d[k]]. *)
Definition getitem (d : gmap string pyval) (k : string) : result pyval :=
  match d !! k with
  | Some v => Ok v
  | None => Raise (ELib "KeyError")
  end.

(** ** The third-party libraries

    python-jose, passlib and pydantic are called by the code but are not part
    of it: the embedding takes them as one record of operations. *)

Record Libs := mkLibs {
  (** python-jose.  A token is an opaque bearer string.  [jwt.encode] may
      raise; [jwt.decode] returns the payload or raises a [JWTError]
      ([None] here, the only exception its callers catch); it reads the
      clock to check expiry. *)
  token : Type;
  jwt_encode : gmap string pyval → string → string → result token;
  jwt_decode : token → string → list string → datetime → option (gmap string pyval);
  (** passlib.  [pwd_context.hash] draws a fresh salt, made explicit as its
      first argument; [pwd_context.verify] may raise. *)
  salt : Type;
  pwd_context_hash : salt → string → result string;
  pwd_context_verify : string → pyval → result bool;
  (** pydantic.  The model constructor, called on the unpacked dictionary,
      validates it into a model or raises; the clock feeds the
      [default_factory] of [created_at]. *)
  UserInDB_cls : gmap string pyval → datetime → result UserInDB;
  UserResponse_cls : gmap string pyval → datetime → result UserResponse;
  (** The builtin [str]. *)
  py_str : pyval → string
}.

(** *** A reference instance

    One concrete choice of the libraries, used to run the embedding on
    concrete requests.  Signatures and digests are symbolic: a token records
    the key it was signed with, a hash records its salt and an injective
    digest of the password. *)

Module Ref.

(** **** python-jose *)

Inductive token : Type :=
| NotJws (s : string)
| Jws (alg : string) (payload : gmap string pyval) (signing_key : string).

Definition supported (alg : string) : bool :=
  bool_decide (alg ∈ ["HS256"; "HS384"; "HS512"]).

(** [timegm(t.utctimetuple())]: whole seconds since the epoch. *)
Definition numeric_date (t : datetime) : Z := t / 1000000.

(** [jwt.encode] replaces a [datetime] under [exp], [iat] or [nbf] by its
    numeric date. *)
Definition wire_time (k : string) (c : gmap string pyval) : gmap string pyval :=
  match c !! k with
  | Some (PDatetime t) => <[k := PInt (numeric_date t)]> c
  | _ => c
  end.

Definition wire (c : gmap string pyval) : gmap string pyval :=
  wire_time "nbf" (wire_time "iat" (wire_time "exp" c)).

(** What [json.dumps] serialises. *)
Fixpoint json_ok (v : pyval) : bool :=
  match v with
  | PDatetime _ | PObjectId _ => false
  | PList l => forallb json_ok l
  | PDict d => forallb (fun kv => match kv with (_, w) => json_ok w end) d
  | _ => true
  end.

Definition jwt_encode (claims : gmap string pyval) (key alg : string) : result token :=
  if negb (supported alg) then Raise (ELib "JWSError")
  else if bool_decide (map_Forall (fun _ v => json_ok v = true) (wire claims))
  then Ok (Jws alg (wire claims) key)
  else Raise (ELib "TypeError").

Definition absent (k : string) (p : gmap string pyval) : bool :=
  match p !! k with None => true | Some _ => false end.

Definition str_or_absent (k : string) (p : gmap string pyval) : bool :=
  match p !! k with None | Some (PStr _) => true | Some _ => false end.

Definition int_or_absent (k : string) (p : gmap string pyval) : bool :=
  match p !! k with None | Some (PInt _) => true | Some _ => false end.

(** The registered claims [jwt.decode] validates with its default
    options, no audience, issuer or access token being passed. *)
Definition claims_valid (p : gmap string pyval) (now : datetime) : bool :=
  match p !! "exp" with
  | None => true
  | Some (PInt e) => numeric_date now <=? e
  | Some _ => false
  end
  && match p !! "nbf" with
     | None => true
     | Some (PInt n) => n <=? numeric_date now
     | Some _ => false
     end
  && int_or_absent "iat" p
  && str_or_absent "sub" p
  && str_or_absent "jti" p
  && absent "aud" p
  && absent "at_hash" p.

Definition jwt_decode (tok : token) (key : string) (algorithms : list string)
    (now : datetime) : option (gmap string pyval) :=
  match tok with
  | NotJws _ => None
  | Jws alg payload signing_key =>
      if String.eqb signing_key key
         && bool_decide (alg ∈ algorithms)
         && claims_valid payload now
      then Some payload
      else None
  end.

(** **** passlib, one scheme: a hash is ["$2b$"], one character of salt,
    ["$"], and the digest.  [verify] answers [False] for [None], raises on
    anything else that is not a string, raises [UnknownHashError] on a
    string it cannot identify, and otherwise recomputes and compares. *)

Definition salt : Type := ascii.

Definition pwd_context_hash (s : salt) (password : string) : result string :=
  Ok ("$2b$" +:+ String s ("$" +:+ password)).

Definition salt_of (h : string) : option salt :=
  match h with
  | String "$" (String "2" (String "b" (String "$" (String s (String "$" _))))) =>
      Some s
  | _ => None
  end.

Definition pwd_context_verify (password : string) (h : pyval) : result bool :=
  match h with
  | PNone => Ok false
  | PStr h =>
      match salt_of h with
      | Some s => h' ← pwd_context_hash s password; Ok (String.eqb h' h)
      | None => Raise (ELib "UnknownHashError")
      end
  | _ => Raise (ELib "TypeError")
  end.

(** **** pydantic *)

Definition validation_error {A} : result A := Raise (ELib "ValidationError").

Definition str_field (k : string) (data : gmap string pyval) : result string :=
  match data !! k with
  | Some (PStr s) => Ok s
  | _ => validation_error
  end.

(** [EmailStr], approximated: one [@] with something on both sides. *)
Fixpoint count_at (s : string) : nat :=
  match s with
  | EmptyString => 0%nat
  | String c s' => ((if Ascii.eqb c "@" then 1 else 0) + count_at s')%nat
  end.

Definition email_field (k : string) (data : gmap string pyval) : result string :=
  s ← str_field k data;
  match s with
  | EmptyString => validation_error
  | String c _ =>
      if Ascii.eqb c "@" then validation_error
      else if negb (Nat.eqb (count_at s) 1) then validation_error
      else match String.get (String.length s - 1) s with
           | Some last => if Ascii.eqb last "@" then validation_error else Ok s
           | None => validation_error
           end
  end.

Definition opt_str_field (k : string) (data : gmap string pyval) : result (option string) :=
  match data !! k with
  | None | Some PNone => Ok None
  | Some (PStr s) => Ok (Some s)
  | Some _ => validation_error
  end.

Definition created_at_field (data : gmap string pyval) (now : datetime) : result datetime :=
  match data !! "created_at" with
  | None => Ok now
  | Some (PDatetime t) => Ok t
  | Some _ => validation_error
  end.

Definition is_admin_field (data : gmap string pyval) : result (option bool) :=
  match data !! "is_admin" with
  | None => Ok (Some false)
  | Some PNone => Ok None
  | Some (PBool b) => Ok (Some b)
  | Some _ => validation_error
  end.

Definition UserInDB_cls (data : gmap string pyval) (now : datetime) : result UserInDB :=
  i ← opt_str_field "_id" data;
  e ← email_field "email" data;
  f ← str_field "first_name" data;
  ph ← str_field "phone" data;
  h ← str_field "hashed_password" data;
  c ← created_at_field data now;
  a ← is_admin_field data;
  Ok {| u_id := i; u_email := e; u_first_name := f; u_phone := ph;
        u_hashed_password := h; u_created_at := c; u_is_admin := a |}.

Definition UserResponse_cls (data : gmap string pyval) (now : datetime)
  : result UserResponse :=
  i ← opt_str_field "_id" data;
  e ← email_field "email" data;
  f ← str_field "first_name" data;
  ph ← str_field "phone" data;
  c ← created_at_field data now;
  a ← is_admin_field data;
  Ok {| ur_id := i; ur_email := e; ur_first_name := f; ur_phone := ph;
        ur_created_at := c; ur_is_admin := a |}.

(** [str], exact on the values that reach it here. *)
Definition py_str (v : pyval) : string :=
  match v with
  | PStr s => s
  | PObjectId hex => hex
  | PNone => "None"
  | PBool true => "True"
  | PBool false => "False"
  | _ => ""
  end.

Definition libs : Libs :=
  mkLibs token jwt_encode jwt_decode
         salt pwd_context_hash pwd_context_verify
         UserInDB_cls UserResponse_cls py_str.

End Ref.

(** *** Concrete requests

    A secret, an environment, a store with two registered users, and the
    tokens the reference instance issues for them at [t0]. *)

Module Scenario.

Definition settings1 : Settings :=
  {| mongodb_url := "mongodb://localhost";
     jwt_secret_key := "s3cret";
     jwt_algorithm := "HS256";
     jwt_expiration_time := 1440;
     api_v1_str := "/api/v1" |}.

Definition env_admin : gmap string string :=
  <["ADMIN_EMAIL" := "admin@x.com"]> (<["ADMIN_PASSWORD" := "letmein"]> ∅).

Definition env_unset : gmap string string := ∅.

(** 2023-11-14 22:13:20 UTC, and one hour later. *)
Definition t0 : datetime := 1700000000000000.
Definition t1 : datetime := t0 + 3600 * 1000000.

Definition alice : UserCreate :=
  {| uc_email := "a@x.com"; uc_password := "pw123456";
     uc_first_name := "Alice"; uc_phone := "0123456789" |}.

Definition root : UserCreate :=
  {| uc_email := "admin@x.com"; uc_password := "letmein";
     uc_first_name := "Root"; uc_phone := "0987654321" |}.

Definition doc (oid : string) (u : UserCreate) (hashed : string) (at_ : datetime)
  : gmap string pyval :=
  <["_id" := PObjectId oid]>
  (<["email" := PStr (uc_email u)]>
  (<["hashed_password" := PStr hashed]>
  (<["first_name" := PStr (uc_first_name u)]>
  (<["phone" := PStr (uc_phone u)]>
  (<["created_at" := PDatetime at_]> ∅))))).

(** The store after [alice] and [root] registered. *)
Definition db2 : database :=
  {| users := [ doc "65a0" alice "$2b$x$pw123456" 1000000;
                doc "65a1" root "$2b$y$letmein" 2000000 ] |}.


Definition exp0 : Z := Ref.numeric_date (t0 + timedelta_minutes 1440).

(** The token of the login path for [sub]. *)
Definition user_tok (sub : string) : Ref.token :=
  Ref.Jws "HS256" (<["exp" := PInt exp0]> (<["sub" := PStr sub]> ∅)) "s3cret".

(** The token of the admin path for [sub]. *)
Definition admin_tok (sub : string) : Ref.token :=
  Ref.Jws "HS256"
    (<["exp" := PInt exp0]>
       (<["sub" := PStr sub]> (<["is_admin" := PBool true]> ∅)))
    "s3cret".


Definition alice_resolved : UserInDB :=
  {| u_id := Some "65a0"; u_email := "a@x.com"; u_first_name := "Alice";
     u_phone := "0123456789"; u_hashed_password := "$2b$x$pw123456";
     u_created_at := 1000000; u_is_admin := Some false |}.

Definition root_resolved : UserInDB :=
  {| u_id := Some "65a1"; u_email := "admin@x.com"; u_first_name := "Root";
     u_phone := "0987654321"; u_hashed_password := "$2b$y$letmein";
     u_created_at := 2000000; u_is_admin := Some true |}.

(** A stand-in for the statistics queries: the number of users. *)
Definition count_users (db : database) (now : datetime) : result nat :=
  Ok (length (users db)).

End Scenario.

(** ** [config/database.py] *)

(** The driver: [AsyncIOMotorClient(url, ...)] builds a client or raises,
    the [ping] command answers or raises, [client.sunainscent] is the handle
    of the database of that name. *)
Record Motor := mkMotor {
  Client : Type;
  Handle : Type;
  AsyncIOMotorClient : string → result Client;
  ping : Client → result unit;
  sunainscent : Client → Handle
}.

(** The module-level object [mongodb]. *)
Record MongoDB (M : Motor) := mkMongoDB {
  client : option (Client M);
  mongo_database : option (Handle M)
}.
Arguments mkMongoDB {M}.
Arguments client {M}.
Arguments mongo_database {M}.

Definition mongodb_initial (M : Motor) : MongoDB M :=
  {| client := None; mongo_database := None |}.

Definition HTTP_503_SERVICE_UNAVAILABLE : Z := 503.
Definition HTTP_404_NOT_FOUND : Z := 404.

Definition database_unavailable : exn :=
  EHTTP {| status_code := HTTP_503_SERVICE_UNAVAILABLE;
           detail := "Database connection not available. Please check MongoDB configuration.";
           headers := [] |}.

Definition get_database {M : Motor} (mongodb : MongoDB M) : result (Handle M) :=
  match mongo_database mongodb with
  | None => Raise database_unavailable
  | Some d => Ok d
  end.

(** [needle in hay] on strings. *)
Fixpoint starts_with (needle hay : string) : bool :=
  match needle, hay with
  | EmptyString, _ => true
  | String a needle', String b hay' => Ascii.eqb a b && starts_with needle' hay'
  | String _ _, EmptyString => false
  end.

Fixpoint str_in (needle hay : string) : bool :=
  starts_with needle hay
  || match hay with
     | EmptyString => false
     | String _ hay' => str_in needle hay'
     end.

(** Every exception of the [try] block is caught and logged; the client is
    assigned before the ping, the database only after it. *)
Definition connect_to_mongo {M : Motor} (environ : gmap string string)
    (mongodb : MongoDB M) : MongoDB M :=
  match environ !! "MONGODB_URL" with
  | None => mongodb
  | Some mongodb_url =>
      if String.eqb mongodb_url "" then mongodb
      else if str_in "<db_username>" mongodb_url || str_in "<db_password>" mongodb_url
      then mongodb
      else
        match AsyncIOMotorClient M mongodb_url with
        | Raise _ => mongodb
        | Ok c =>
            let connecting :=
              {| client := Some c; mongo_database := mongo_database mongodb |} in
            match ping M c with
            | Raise _ => connecting
            | Ok _ => {| client := Some c; mongo_database := Some (sunainscent M c) |}
            end
        end
  end.

(** What counts as a usable [MONGODB_URL]: set, not empty, and free of the
    two placeholders. *)
Definition usable_url (environ : gmap string string) (url : string) : Prop :=
  environ !! "MONGODB_URL" = Some url
  ∧ url ≠ ""
  ∧ (∀ before rest, url ≠ before +:+ "<db_username>" +:+ rest)
  ∧ (∀ before rest, url ≠ before +:+ "<db_password>" +:+ rest).

(** [close_mongo_connection]: the client it closes, if there is one; the
    object [mongodb] keeps both attributes. *)
Definition close_mongo_connection {M : Motor} (mongodb : MongoDB M)
  : option (Client M) :=
  client mongodb.

(** A driver for concrete runs: a client is its address, a server whose
    address mentions ["down"] does not answer the ping. *)
Module RefMotor.

Definition AsyncIOMotorClient (url : string) : result string :=
  if starts_with "mongodb" url then Ok url else Raise (ELib "InvalidURI").

Definition ping (c : string) : result unit :=
  if str_in "down" c then Raise (ELib "ServerSelectionTimeoutError") else Ok tt.

Definition motor : Motor :=
  mkMotor string string AsyncIOMotorClient ping (fun c => c +:+ "/sunainscent").

End RefMotor.

(** ** The collections of [routes/orders.py], [routes/products.py] and
    [routes/contact.py]

    Each handler works on one collection: the list of its documents in
    insertion order. *)

(** [bson.ObjectId]: which strings [ObjectId.is_valid] accepts, and the
    identifier (as [str] prints it) that [ObjectId(s)] makes of one. *)
Record Bson := mkBson {
  ObjectId_is_valid : string → bool;
  ObjectId : string → string
}.

(** [{"$set": fields}] applied to a document, for top-level field names. *)
Definition apply_set (fields d : gmap string pyval) : gmap string pyval :=
  (to_bson <$> fields) ∪ d.

(** [update_one(filter, {"$set": fields})]: the first document the filter
    selects is updated; returns [matched_count] and the collection. *)
Fixpoint update_one (sel : gmap string pyval → bool) (fields : gmap string pyval)
    (c : list (gmap string pyval)) : nat * list (gmap string pyval) :=
  match c with
  | [] => (0%nat, [])
  | d :: c' =>
      if sel d then (1%nat, apply_set fields d :: c')
      else let r := update_one sel fields c' in (r.1, d :: r.2)
  end.

(** [delete_one(filter)]: the first document the filter selects is removed;
    returns [deleted_count] and the collection. *)
Fixpoint delete_one (sel : gmap string pyval → bool)
    (c : list (gmap string pyval)) : nat * list (gmap string pyval) :=
  match c with
  | [] => (0%nat, [])
  | d :: c' =>
      if sel d then (1%nat, c')
      else let r := delete_one sel c' in (r.1, d :: r.2)
  end.

(** [update_many(filter, {"$set": fields})]: every selected document is
    updated; returns the number of selected documents and the collection. *)
Definition update_many (sel : gmap string pyval → bool) (fields : gmap string pyval)
    (c : list (gmap string pyval)) : nat * list (gmap string pyval) :=
  (length (filter (fun d => sel d = true) c),
   (fun d => if sel d then apply_set fields d else d) <$> c).

(** A query [{k: b}] with a boolean [b] selects the documents whose field
    [k] is [b], or is an array with [b] among its elements. *)
Definition bool_elem (b : bool) (v : pyval) : bool :=
  match v with PBool a => Bool.eqb a b | _ => false end.

Definition field_is_bool (k : string) (b : bool) (d : gmap string pyval) : bool :=
  match d !! k with
  | Some (PList l) => existsb (bool_elem b) l
  | Some v => bool_elem b v
  | None => false
  end.

(** [d[k] = v] for an optional value: the key is set only for [Some]. *)
Definition set_some (k : string) (o : option pyval) (m : gmap string pyval)
  : gmap string pyval :=
  match o with
  | Some v => <[k := v]> m
  | None => m
  end.

(** *** [validation/order_models.py] *)

Inductive OrderStatus : Type :=
| PENDING | CONFIRMED | PROCESSING | SHIPPED | DELIVERED | CANCELLED.

Definition OrderStatus_value (st : OrderStatus) : string :=
  match st with
  | PENDING => "pending"
  | CONFIRMED => "confirmed"
  | PROCESSING => "processing"
  | SHIPPED => "shipped"
  | DELIVERED => "delivered"
  | CANCELLED => "cancelled"
  end.

Record OrderUpdate := mkOrderUpdate {
  ou_status : option OrderStatus;
  ou_admin_notes : option string
}.

(** *** [validation/product_models.py] *)

Record ProductUpdate := mkProductUpdate {
  pu_name : option string;
  pu_description : option string;
  pu_price : option Q;
  pu_category : option string;
  pu_image_url : option string;
  pu_stock_quantity : option Z;
  pu_is_active : option bool
}.

(** *** [validation/contact_models.py] *)

Record ContactMessage := mkContactMessage {
  cm_name : string;
  cm_email : string;
  cm_phone : option string;
  cm_subject : string;
  cm_message : string
}.

Record ContactMessageUpdate := mkContactMessageUpdate {
  cu_is_read : option bool;
  cu_admin_notes : option string
}.

(** The response models: pydantic validates the keyword arguments into a
    model or raises. *)
Record ShopModels := mkShopModels {
  OrderResponse : Type;
  OrderResponse_cls : gmap string pyval → result OrderResponse;
  ProductResponse : Type;
  ProductResponse_cls : gmap string pyval → datetime → result ProductResponse;
  ContactMessageResponse : Type;
  ContactMessageResponse_cls : gmap string pyval → result ContactMessageResponse
}.

(** Instances for concrete runs: identifiers are 24 hexadecimal digits,
    compared without regard to case; a response is the dictionary it was
    built from. *)
Module RefShop.

Definition is_hex (a : ascii) : bool :=
  let n := nat_of_ascii a in
  ((48 <=? n) && (n <=? 57) || (65 <=? n) && (n <=? 70)
   || (97 <=? n) && (n <=? 102))%nat.

Fixpoint all_hex (s : string) : bool :=
  match s with
  | EmptyString => true
  | String a s' => is_hex a && all_hex s'
  end.

Definition lower (a : ascii) : ascii :=
  let n := nat_of_ascii a in
  if ((65 <=? n) && (n <=? 90))%nat then ascii_of_nat (n + 32) else a.

Fixpoint lowercase (s : string) : string :=
  match s with
  | EmptyString => EmptyString
  | String a s' => String (lower a) (lowercase s')
  end.

Definition bson : Bson :=
  {| ObjectId_is_valid := fun s => Nat.eqb (String.length s) 24 && all_hex s;
     ObjectId := lowercase |}.

Definition models : ShopModels :=
  mkShopModels (gmap string pyval) (fun kw => Ok kw)
               (gmap string pyval) (fun kw _ => Ok kw)
               (gmap string pyval) (fun kw => Ok kw).

End RefShop.

(** Concrete collections: two orders, two products, three messages. *)
Module ShopScenario.

Definition id_a : string := "64f8b123456789abcdef0123".
Definition id_b : string := "64f8b123456789abcdef0456".
Definition id_c : string := "64f8b123456789abcdef0789".

Definition order (oid number : string) (status : OrderStatus) : gmap string pyval :=
  <["_id" := PObjectId oid]>
  (<["order_number" := PStr number]>
  (<["customer_email" := PStr "a@x.com"]>
  (<["customer_name" := PStr "Alice"]>
  (<["items" := PList [PDict [("product_name", PStr "Premium Scent");
                              ("quantity", PInt 2)]]]>
  (<["shipping_address" := PDict [("city", PStr "Lahore")]]>
  (<["status" := PStr (OrderStatus_value status)]>
  (<["total_amount" := PFloat (5998 # 100)]>
  (<["notes" := PNone]>
  (<["admin_notes" := PNone]>
  (<["created_at" := PDatetime 1700000000000000]>
  (<["updated_at" := PDatetime 1700000000000000]> ∅))))))))))).

Definition orders2 : list (gmap string pyval) :=
  [ order id_a "SUN-20231114-0A1B2C3D" PENDING;
    order id_b "SUN-20231114-4E5F6071" SHIPPED ].

Definition product (oid name : string) (active : bool) : gmap string pyval :=
  <["_id" := PObjectId oid]>
  (<["name" := PStr name]>
  (<["description" := PStr "A scent"]>
  (<["price" := PFloat (2999 # 100)]>
  (<["category" := PStr "perfume"]>
  (<["stock_quantity" := PInt 7]>
  (<["is_active" := PBool active]>
  (<["created_at" := PDatetime 1700000000000000]>
  (<["updated_at" := PDatetime 1700000000000000]> ∅)))))))).

Definition products2 : list (gmap string pyval) :=
  [ product id_a "Oud" true; product id_b "Rose" true ].

Definition message (oid subject : string) (is_read : bool) : gmap string pyval :=
  <["_id" := PObjectId oid]>
  (<["name" := PStr "Alice"]>
  (<["email" := PStr "a@x.com"]>
  (<["phone" := PNone]>
  (<["subject" := PStr subject]>
  (<["message" := PStr "I would like to know more."]>
  (<["created_at" := PDatetime 1700000000000000]>
  (<["is_read" := PBool is_read]>
  (<["admin_notes" := PNone]> ∅)))))))).

Definition messages3 : list (gmap string pyval) :=
  [ message id_a "Product inquiry" false;
    message id_b "Late delivery" true;
    message id_c "Wholesale" false ].

(** An environment with a usable address, one whose server is down, and one
    still holding the placeholder of the sample [.env]. *)
Definition env_url : gmap string string :=
  <["MONGODB_URL" := "mongodb+srv://app:pw@cluster0.example.net"]> ∅.

Definition env_down : gmap string string :=
  <["MONGODB_URL" := "mongodb://down.example.net"]> ∅.

Definition env_placeholder : gmap string string :=
  <["MONGODB_URL" := "mongodb+srv://<db_username>:<db_password>@cluster0.example.net"]> ∅.

(** The store after [alice] alone registered, the response she got, and a
    second registration under her address. *)
Definition db1 : database :=
  {| users := [ Scenario.doc "65a0" Scenario.alice "$2b$x$pw123456" 1000000 ] |}.

Definition alice_response : UserResponse :=
  {| ur_id := Some "65a0"; ur_email := "a@x.com"; ur_first_name := "Alice";
     ur_phone := "0123456789"; ur_created_at := 1000000;
     ur_is_admin := Some false |}.

Definition alice_again : UserCreate :=
  {| uc_email := "a@x.com"; uc_password := "another-password";
     uc_first_name := "Mallory"; uc_phone := "0000000000" |}.

End ShopScenario.

(** ** [utils/auth.py], [routes/auth.py], [routes/admin.py] *)

Section Auth.

Variable L : Libs.

(** [settings = get_settings()], read once at import. *)
Variable settings : Settings.

(** The process environment behind [os.getenv]. *)
Variable environ : gmap string string.

(** The dependencies FastAPI injects are arguments: [credentials] is the
    bearer string [HTTPBearer] extracted from the request, [db] the database
    [get_database] returned, [now] what the clock reads during the call. *)

Definition getenv (k : string) : option string := environ !! k.

(** *** [validation/user_models.py]: [from_mongo] *)

Definition stringify_id (data : gmap string pyval) : gmap string pyval :=
  if truthy (dict_get data "_id")
  then <["_id" := PStr (py_str L (dict_get data "_id"))]> data
  else data.

Definition UserInDB_from_mongo (data : gmap string pyval) (now : datetime)
  : result UserInDB :=
  UserInDB_cls L (stringify_id data) now.

(** [find_one] may have returned [None]; [None.get] raises. *)
Definition UserResponse_from_mongo (data : option (gmap string pyval)) (now : datetime)
  : result UserResponse :=
  match data with
  | None => Raise (ELib "AttributeError")
  | Some data => UserResponse_cls L (stringify_id data) now
  end.

(** *** [utils/auth.py] *)

Definition verify_password (plain_password : string) (hashed_password : pyval)
  : result bool :=
  pwd_context_verify L plain_password hashed_password.

Definition get_password_hash (s : salt L) (password : string) : result string :=
  pwd_context_hash L s password.

(** The [expire] computed by [create_access_token]. *)
Definition token_expire (expires_delta : option timedelta) (now : datetime) : datetime :=
  match expires_delta with
  | Some d =>
      if timedelta_truthy d then now + d
      else now + timedelta_minutes (jwt_expiration_time settings)
  | None => now + timedelta_minutes (jwt_expiration_time settings)
  end.

(** The dictionary [to_encode] handed to [jwt.encode]. *)
Definition to_encode (data : gmap string pyval) (expires_delta : option timedelta)
    (now : datetime) : gmap string pyval :=
  <["exp" := PDatetime (token_expire expires_delta now)]> data.

Definition create_access_token (data : gmap string pyval)
    (expires_delta : option timedelta) (now : datetime) : result (token L) :=
  jwt_encode L (to_encode data expires_delta now)
             (jwt_secret_key settings) (jwt_algorithm settings).

Definition bearer_headers : list (string * string) := [("WWW-Authenticate", "Bearer")].

(** The exceptions the resolvers build. *)

Definition could_not_validate : exn :=
  EHTTP {| status_code := HTTP_401_UNAUTHORIZED;
           detail := "Could not validate credentials";
           headers := bearer_headers |}.

Definition user_not_found : exn :=
  EHTTP {| status_code := HTTP_401_UNAUTHORIZED;
           detail := "User not found";
           headers := bearer_headers |}.

Definition admin_access_401 : exn :=
  EHTTP {| status_code := HTTP_401_UNAUTHORIZED;
           detail := "Admin access required";
           headers := bearer_headers |}.

Definition verify_token (tok : token L) (now : datetime) : result TokenData :=
  let credentials_exception := could_not_validate in
  match jwt_decode L tok (jwt_secret_key settings) [jwt_algorithm settings] now with
  | Some payload =>
      match dict_get payload "sub" with
      | PNone => Raise credentials_exception
      | PStr email => Ok {| td_email := Some email |}
      | _ => Raise (ELib "ValidationError")
      end
  | None => Raise credentials_exception
  end.

Definition get_current_user (credentials : token L) (db : database) (now : datetime)
  : result UserInDB :=
  token_data ← verify_token credentials now;
  match find_one_email db (td_email token_data) with
  | None =>
      Raise user_not_found
  | Some user =>
      let admin_email := getenv "ADMIN_EMAIL" in
      user_email ← getitem user "email";
      let is_admin := eq_getenv user_email admin_email in
      user_data ← UserInDB_from_mongo user now;
      Ok (set_is_admin user_data is_admin)
  end.

Definition verify_admin_credentials (email password : string) : bool :=
  eq_getenv (PStr email) (getenv "ADMIN_EMAIL")
  && eq_getenv (PStr password) (getenv "ADMIN_PASSWORD").

Definition admin_token_data (email : string) : gmap string pyval :=
  <["sub" := PStr email]> (<["is_admin" := PBool true]> ∅).

Definition create_admin_token (email : string) (now : datetime) : result (token L) :=
  create_access_token (admin_token_data email) None now.

(** The dictionary [{"email": email, "is_admin": is_admin}]. *)
Record admin_data := mkAdminData { ad_email : pyval; ad_is_admin : pyval }.

Definition verify_admin_token (tok : token L) (now : datetime) : result admin_data :=
  let credentials_exception := admin_access_401 in
  match jwt_decode L tok (jwt_secret_key settings) [jwt_algorithm settings] now with
  | Some payload =>
      let email := dict_get payload "sub" in
      let is_admin := dict_get_default payload "is_admin" (PBool false) in
      if is_None email || negb (truthy is_admin) then Raise credentials_exception
      else Ok {| ad_email := email; ad_is_admin := is_admin |}
  | None => Raise credentials_exception
  end.

Definition get_current_admin (credentials : token L) (now : datetime) : result admin_data :=
  verify_admin_token credentials now.

(** *** [routes/auth.py] *)

(** A handler that writes to the store returns the store it leaves behind
    together with its result: a raise after [insert_one] does not undo
    the insertion. *)
Definition user_doc (user : UserCreate) (hashed : string) (now : datetime)
  : gmap string pyval :=
  <["email" := PStr (uc_email user)]>
  (<["hashed_password" := PStr hashed]>
  (<["first_name" := PStr (uc_first_name user)]>
  (<["phone" := PStr (uc_phone user)]>
  (<["created_at" := PDatetime now]> ∅)))).

Definition register_user (oid : string) (s : salt L) (user : UserCreate)
    (db : database) (now : datetime) : result UserResponse * database :=
  match find_one_email db (Some (uc_email user)) with
  | Some _ =>
      (Raise (EHTTP {| status_code := HTTP_400_BAD_REQUEST;
                       detail := "Email already registered";
                       headers := [] |}), db)
  | None =>
      match get_password_hash s (uc_password user) with
      | Raise e => (Raise e, db)
      | Ok hashed =>
          match insert_one oid (user_doc user hashed now) db with
          | Raise e => (Raise e, db)
          | Ok (inserted_id, db') =>
              let created_user := find_one_id db' inserted_id in
              (UserResponse_from_mongo created_user now, db')
          end
      end
  end.

Definition login_user (user_credentials : UserLogin) (db : database) (now : datetime)
  : result (Token (token L)) :=
  let incorrect :=
    EHTTP {| status_code := HTTP_401_UNAUTHORIZED;
             detail := "Incorrect email or password";
             headers := bearer_headers |} in
  match find_one_email db (Some (ul_email user_credentials)) with
  | None => Raise incorrect
  | Some user =>
      hashed ← getitem user "hashed_password";
      ok ← verify_password (ul_password user_credentials) hashed;
      if negb ok then Raise incorrect
      else
        user_email ← getitem user "email";
        access ← create_access_token (<["sub" := user_email]> ∅) None now;
        Ok {| access_token := access; token_type := "bearer" |}
  end.

(** [GET /auth/me]. *)
Definition get_current_user_profile (current_user : UserInDB) : UserResponse :=
  {| ur_id := u_id current_user;
     ur_email := u_email current_user;
     ur_first_name := u_first_name current_user;
     ur_phone := u_phone current_user;
     ur_created_at := u_created_at current_user;
     ur_is_admin := u_is_admin current_user |}.

(** *** [routes/admin.py] *)

Definition admin_required : exn :=
  EHTTP {| status_code := HTTP_403_FORBIDDEN;
           detail := "Admin access required";
           headers := [] |}.

Record admin_verified := mkAdminVerified {
  av_message : string;
  av_admin_email : string;
  av_is_admin : option bool
}.

Definition verify_admin_access (current_user : UserInDB) : result admin_verified :=
  if negb (optbool_truthy (u_is_admin current_user)) then Raise admin_required
  else Ok {| av_message := "Admin access verified";
             av_admin_email := u_email current_user;
             av_is_admin := u_is_admin current_user |}.

(** The statistics queries that follow the check are read-only and out of
    scope: [stats] stands for them. *)
Definition get_dashboard_stats {A : Type} (stats : database → datetime → result A)
    (current_user : UserInDB) (db : database) (now : datetime) : result A :=
  if negb (optbool_truthy (u_is_admin current_user)) then Raise admin_required
  else stats db now.

(** A request: FastAPI resolves the [Depends(get_current_user)] parameter
    first and calls the handler only when that succeeded. *)
Definition GET_admin_verify (credentials : token L) (db : database) (now : datetime)
  : result admin_verified :=
  current_user ← get_current_user credentials db now;
  verify_admin_access current_user.

Definition GET_admin_dashboard {A : Type} (stats : database → datetime → result A)
    (credentials : token L) (db : database) (now : datetime) : result A :=
  current_user ← get_current_user credentials db now;
  get_dashboard_stats stats current_user db now.

(** *** Contracts of the libraries, named where a proof relies on one *)

(** Whatever [jwt.decode] returns for a token made by [jwt.encode] is the
    encoded claims, the time claims apart (they come back as numeric
    dates). *)
Definition time_claims : list string := ["exp"; "iat"; "nbf"].

Definition jose_decode_sound : Prop :=
  ∀ claims key alg tok key' algs now payload,
    jwt_encode L claims key alg = Ok tok →
    jwt_decode L tok key' algs now = Some payload →
    ∀ k, k ∉ time_claims → payload !! k = claims !! k.

(** A token whose only registered claims are a string [sub] and a
    [datetime] [exp] decodes, under the key and algorithm it was encoded
    with, at any time up to [exp]. *)
Definition other_registered : list string := ["nbf"; "iat"; "jti"; "aud"; "iss"; "at_hash"].

Definition jose_decode_complete : Prop :=
  ∀ claims key alg tok sub e now,
    jwt_encode L claims key alg = Ok tok →
    claims !! "sub" = Some (PStr sub) →
    claims !! "exp" = Some (PDatetime e) →
    (∀ k, k ∈ other_registered → claims !! k = None) →
    now ≤ e →
    is_Some (jwt_decode L tok key [alg] now).


(** *** The store under the operations of [routes/auth.py] and
    [routes/admin.py] *)

Inductive request : Type :=
| POST_register (oid : string) (s : salt L) (user : UserCreate) (now : datetime)
| POST_login (user_credentials : UserLogin) (now : datetime)
| GET_me (credentials : token L) (now : datetime)
| GET_verify (credentials : token L) (now : datetime)
| GET_dashboard (credentials : token L) (now : datetime).

(** The store a request leaves behind: only registration writes. *)
Definition serve (db : database) (r : request) : database :=
  match r with
  | POST_register oid s user now => (register_user oid s user db now).2
  | POST_login _ _ | GET_me _ _ | GET_verify _ _ | GET_dashboard _ _ => db
  end.

Definition empty_db : database := {| users := [] |}.

Definition reachable (db : database) : Prop :=
  ∃ rs : list request, db = foldl serve empty_db rs.

(** *** More of [routes/auth.py] and [routes/admin.py] *)

(** The document of a registration as the store holds it. *)
Definition stored_user (oid : string) (user : UserCreate) (hashed : string)
    (now : datetime) : gmap string pyval :=
  <["_id" := PObjectId oid]> (to_bson <$> user_doc user hashed now).

(** The exception [login_user] raises, for an unknown address and for a
    password that does not verify alike. *)
Definition incorrect_credentials : exn :=
  EHTTP {| status_code := HTTP_401_UNAUTHORIZED;
           detail := "Incorrect email or password";
           headers := bearer_headers |}.

(** [GET /admin/products/stats], [GET /admin/users/stats] and
    [GET /admin/analytics/summary] open with the same check as the
    dashboard; [stats] stands for the read-only queries after it. *)
Definition get_product_stats {A : Type} (stats : database → datetime → result A)
    (current_user : UserInDB) (db : database) (now : datetime) : result A :=
  if negb (optbool_truthy (u_is_admin current_user)) then Raise admin_required
  else stats db now.

Definition get_user_stats {A : Type} (stats : database → datetime → result A)
    (current_user : UserInDB) (db : database) (now : datetime) : result A :=
  if negb (optbool_truthy (u_is_admin current_user)) then Raise admin_required
  else stats db now.

Definition get_analytics_summary {A : Type} (stats : database → datetime → result A)
    (current_user : UserInDB) (db : database) (now : datetime) : result A :=
  if negb (optbool_truthy (u_is_admin current_user)) then Raise admin_required
  else stats db now.

Definition GET_admin_products_stats {A : Type} (stats : database → datetime → result A)
    (credentials : token L) (db : database) (now : datetime) : result A :=
  current_user ← get_current_user credentials db now;
  get_product_stats stats current_user db now.

Definition GET_admin_users_stats {A : Type} (stats : database → datetime → result A)
    (credentials : token L) (db : database) (now : datetime) : result A :=
  current_user ← get_current_user credentials db now;
  get_user_stats stats current_user db now.

Definition GET_admin_analytics_summary {A : Type}
    (stats : database → datetime → result A)
    (credentials : token L) (db : database) (now : datetime) : result A :=
  current_user ← get_current_user credentials db now;
  get_analytics_summary stats current_user db now.




(** *** [routes/orders.py], [routes/products.py], [routes/contact.py] *)

Variable OID : Bson.
Variable SM : ShopModels.

Definition bad_request (msg : string) : exn :=
  EHTTP {| status_code := HTTP_400_BAD_REQUEST; detail := msg; headers := [] |}.

Definition not_found (msg : string) : exn :=
  EHTTP {| status_code := HTTP_404_NOT_FOUND; detail := msg; headers := [] |}.

(** [OrderResponse.from_mongo]: the fields are read one by one, a missing
    one raises [KeyError]; [None] cannot be subscripted. *)
Definition OrderResponse_from_mongo (order_doc : option (gmap string pyval))
  : result (OrderResponse SM) :=
  match order_doc with
  | None => Raise (ELib "TypeError")
  | Some doc =>
      oid ← getitem doc "_id";
      order_number ← getitem doc "order_number";
      customer_email ← getitem doc "customer_email";
      customer_name ← getitem doc "customer_name";
      items ← getitem doc "items";
      shipping_address ← getitem doc "shipping_address";
      status ← getitem doc "status";
      total_amount ← getitem doc "total_amount";
      created_at ← getitem doc "created_at";
      updated_at ← getitem doc "updated_at";
      OrderResponse_cls SM
        (<["id" := PStr (py_str L oid)]>
        (<["order_number" := order_number]>
        (<["customer_email" := customer_email]>
        (<["customer_name" := customer_name]>
        (<["items" := items]>
        (<["shipping_address" := shipping_address]>
        (<["status" := status]>
        (<["total_amount" := total_amount]>
        (<["notes" := dict_get doc "notes"]>
        (<["admin_notes" := dict_get doc "admin_notes"]>
        (<["created_at" := created_at]>
        (<["updated_at" := updated_at]> ∅))))))))))))
  end.

Definition get_order (order_id : string) (orders : list (gmap string pyval))
  : result (OrderResponse SM) :=
  if negb (ObjectId_is_valid OID order_id) then Raise (bad_request "Invalid order ID")
  else
    match find (has_id (ObjectId OID order_id)) orders with
    | None => Raise (not_found "Order not found")
    | Some order => OrderResponse_from_mongo (Some order)
    end.

(** [{k: v for k, v in order_update.dict().items() if v is not None}] with
    [updated_at] added. *)
Definition order_update_data (order_update : OrderUpdate) (now : datetime)
  : gmap string pyval :=
  <["updated_at" := PDatetime now]>
  (set_some "status" (PStr ∘ OrderStatus_value <$> ou_status order_update)
  (set_some "admin_notes" (PStr <$> ou_admin_notes order_update) ∅)).

Definition update_order (order_id : string) (order_update : OrderUpdate)
    (orders : list (gmap string pyval)) (now : datetime)
  : result (OrderResponse SM) * list (gmap string pyval) :=
  if negb (ObjectId_is_valid OID order_id)
  then (Raise (bad_request "Invalid order ID"), orders)
  else
    let oid := ObjectId OID order_id in
    match find (has_id oid) orders with
    | None => (Raise (not_found "Order not found"), orders)
    | Some _ =>
        let orders' :=
          (update_one (has_id oid) (order_update_data order_update now) orders).2 in
        (OrderResponse_from_mongo (find (has_id oid) orders'), orders')
    end.

Definition delete_order (order_id : string) (orders : list (gmap string pyval))
  : result string * list (gmap string pyval) :=
  if negb (ObjectId_is_valid OID order_id)
  then (Raise (bad_request "Invalid order ID"), orders)
  else
    let result := delete_one (has_id (ObjectId OID order_id)) orders in
    if Nat.eqb result.1 0
    then (Raise (not_found "Order not found"), result.2)
    else (Ok "Order deleted successfully", result.2).

(** The requests: [Depends(get_current_admin)] is resolved before the
    handler is called. *)
Definition GET_order (credentials : token L) (order_id : string)
    (orders : list (gmap string pyval)) (now : datetime)
  : result (OrderResponse SM) :=
  _ ← get_current_admin credentials now; get_order order_id orders.

Definition PUT_order (credentials : token L) (order_id : string)
    (order_update : OrderUpdate) (orders : list (gmap string pyval)) (now : datetime)
  : result (OrderResponse SM) * list (gmap string pyval) :=
  match get_current_admin credentials now with
  | Raise e => (Raise e, orders)
  | Ok _ => update_order order_id order_update orders now
  end.

Definition DELETE_order (credentials : token L) (order_id : string)
    (orders : list (gmap string pyval)) (now : datetime)
  : result string * list (gmap string pyval) :=
  match get_current_admin credentials now with
  | Raise e => (Raise e, orders)
  | Ok _ => delete_order order_id orders
  end.

(** [ProductResponse.from_mongo]. *)
Definition ProductResponse_from_mongo (data : option (gmap string pyval))
    (now : datetime) : result (ProductResponse SM) :=
  match data with
  | None => Raise (ELib "AttributeError")
  | Some data => ProductResponse_cls SM (stringify_id data) now
  end.

(** The filter [{"_id": oid, "is_active": True}]. *)
Definition active_with_id (oid : string) (d : gmap string pyval) : bool :=
  has_id oid d && field_is_bool "is_active" true d.

Definition get_product (product_id : string) (products : list (gmap string pyval))
    (now : datetime) : result (ProductResponse SM) :=
  if negb (ObjectId_is_valid OID product_id)
  then Raise (bad_request "Invalid product ID")
  else
    match find (active_with_id (ObjectId OID product_id)) products with
    | None => Raise (not_found "Product not found")
    | Some product => ProductResponse_from_mongo (Some product) now
    end.

Definition product_update_data (product_update : ProductUpdate) (now : datetime)
  : gmap string pyval :=
  <["updated_at" := PDatetime now]>
  (set_some "name" (PStr <$> pu_name product_update)
  (set_some "description" (PStr <$> pu_description product_update)
  (set_some "price" (PFloat <$> pu_price product_update)
  (set_some "category" (PStr <$> pu_category product_update)
  (set_some "image_url" (PStr <$> pu_image_url product_update)
  (set_some "stock_quantity" (PInt <$> pu_stock_quantity product_update)
  (set_some "is_active" (PBool <$> pu_is_active product_update) ∅))))))).

Definition update_product (product_id : string) (product_update : ProductUpdate)
    (products : list (gmap string pyval)) (now : datetime)
  : result (ProductResponse SM) * list (gmap string pyval) :=
  if negb (ObjectId_is_valid OID product_id)
  then (Raise (bad_request "Invalid product ID"), products)
  else
    let oid := ObjectId OID product_id in
    match find (has_id oid) products with
    | None => (Raise (not_found "Product not found"), products)
    | Some _ =>
        let products' :=
          (update_one (has_id oid) (product_update_data product_update now)
             products).2 in
        (ProductResponse_from_mongo (find (has_id oid) products') now, products')
    end.

(** Deleting a product sets [is_active] to [False]. *)
Definition delete_product (product_id : string) (products : list (gmap string pyval))
    (now : datetime) : result string * list (gmap string pyval) :=
  if negb (ObjectId_is_valid OID product_id)
  then (Raise (bad_request "Invalid product ID"), products)
  else
    let result :=
      update_one (has_id (ObjectId OID product_id))
        (<["is_active" := PBool false]> (<["updated_at" := PDatetime now]> ∅))
        products in
    if Nat.eqb result.1 0
    then (Raise (not_found "Product not found"), result.2)
    else (Ok "Product deleted successfully", result.2).

(** [Depends(get_current_user)] is all the product mutations ask for. *)
Definition PUT_product (credentials : token L) (db : database) (product_id : string)
    (product_update : ProductUpdate) (products : list (gmap string pyval))
    (now : datetime) : result (ProductResponse SM) * list (gmap string pyval) :=
  match get_current_user credentials db now with
  | Raise e => (Raise e, products)
  | Ok _ => update_product product_id product_update products now
  end.

Definition DELETE_product (credentials : token L) (db : database) (product_id : string)
    (products : list (gmap string pyval)) (now : datetime)
  : result string * list (gmap string pyval) :=
  match get_current_user credentials db now with
  | Raise e => (Raise e, products)
  | Ok _ => delete_product product_id products now
  end.

(** [contact_messages]: the update writes only when a field was given. *)
Definition contact_update_data (message_update : ContactMessageUpdate)
  : gmap string pyval :=
  set_some "is_read" (PBool <$> cu_is_read message_update)
  (set_some "admin_notes" (PStr <$> cu_admin_notes message_update) ∅).

Definition ContactMessageResponse_from_mongo (contact_doc : option (gmap string pyval))
  : result (ContactMessageResponse SM) :=
  match contact_doc with
  | None => Raise (ELib "TypeError")
  | Some doc =>
      oid ← getitem doc "_id";
      name ← getitem doc "name";
      email ← getitem doc "email";
      subject ← getitem doc "subject";
      message ← getitem doc "message";
      created_at ← getitem doc "created_at";
      ContactMessageResponse_cls SM
        (<["id" := PStr (py_str L oid)]>
        (<["name" := name]>
        (<["email" := email]>
        (<["phone" := dict_get doc "phone"]>
        (<["subject" := subject]>
        (<["message" := message]>
        (<["created_at" := created_at]>
        (<["is_read" := dict_get_default doc "is_read" (PBool false)]>
        (<["admin_notes" := dict_get doc "admin_notes"]> ∅)))))))))
  end.

Definition update_contact_message (message_id : string)
    (message_update : ContactMessageUpdate) (messages : list (gmap string pyval))
  : result (ContactMessageResponse SM) * list (gmap string pyval) :=
  if negb (ObjectId_is_valid OID message_id)
  then (Raise (bad_request "Invalid message ID"), messages)
  else
    let oid := ObjectId OID message_id in
    match find (has_id oid) messages with
    | None => (Raise (not_found "Contact message not found"), messages)
    | Some _ =>
        let update_data := contact_update_data message_update in
        let messages' :=
          if bool_decide (update_data = ∅) then messages
          else (update_one (has_id oid) update_data messages).2 in
        (ContactMessageResponse_from_mongo (find (has_id oid) messages'), messages')
    end.

Record marked_all := mkMarkedAll { modified_count : nat }.

(** Every document the filter [{"is_read": False}] selects is changed by
    setting [is_read] to [True], so [modified_count] is their number. *)
Definition mark_all_messages_as_read (messages : list (gmap string pyval))
  : marked_all * list (gmap string pyval) :=
  let result :=
    update_many (field_is_bool "is_read" false) (<["is_read" := PBool true]> ∅)
      messages in
  ({| modified_count := result.1 |}, result.2).

Definition POST_mark_all_read (credentials : token L)
    (messages : list (gmap string pyval)) (now : datetime)
  : result marked_all * list (gmap string pyval) :=
  match get_current_admin credentials now with
  | Raise e => (Raise e, messages)
  | Ok _ => let r := mark_all_messages_as_read messages in (Ok r.1, r.2)
  end.

(** What every document of the [users] collection satisfies: no
    [is_admin] field, and a string under [email]. *)
Definition doc_inv (d : gmap string pyval) : Prop :=
  d !! "is_admin" = None ∧ ∃ e, d !! "email" = Some (PStr e).

Definition store_inv (db : database) : Prop := Forall doc_inv (users db).

(** *** Reading the resolvers *)

Ltac step_bind := unfold mbind, result_bind; cbn beta iota.

(** Closes [k ∉ l], or a goal with [k ∈ l] among the hypotheses, for a
    literal key and a literal list that does not have it. *)
Ltac not_listed :=
  let H := fresh in
  try intros H;
  match goal with
  | H : _ ∈ _ |- _ =>
      apply list_elem_of_In in H; simpl in H; intuition discriminate
  end.

Lemma kind_could_not_validate : kind_of could_not_validate = Unauthorized.
Proof. reflexivity. Qed.

Lemma kind_user_not_found : kind_of user_not_found = Unauthorized.
Proof. reflexivity. Qed.

Lemma kind_admin_access_401 : kind_of admin_access_401 = Unauthorized.
Proof. reflexivity. Qed.

Lemma kind_admin_required : kind_of admin_required = Forbidden.
Proof. reflexivity. Qed.

(** [verify_token] on a payload with a string subject. *)
Lemma verify_token_sub tok now payload e :
  jwt_decode L tok (jwt_secret_key settings) [jwt_algorithm settings] now = Some payload →
  payload !! "sub" = Some (PStr e) →
  verify_token tok now = Ok {| td_email := Some e |}.
Proof.
  intros Hdec Hsub. unfold verify_token, dict_get. by rewrite Hdec, Hsub.
Qed.

Lemma verify_token_rejected tok now :
  jwt_decode L tok (jwt_secret_key settings) [jwt_algorithm settings] now = None →
  verify_token tok now = Raise could_not_validate.
Proof. intros Hdec. unfold verify_token. by rewrite Hdec. Qed.

(** When [verify_token] returns, the token decoded and carries a string
    subject. *)
Lemma verify_token_ok tok now td :
  verify_token tok now = Ok td →
  ∃ payload e,
    jwt_decode L tok (jwt_secret_key settings) [jwt_algorithm settings] now = Some payload
    ∧ dict_get payload "sub" = PStr e
    ∧ td = {| td_email := Some e |}.
Proof.
  unfold verify_token.
  destruct (jwt_decode L tok _ _ now) as [payload|] eqn:Hdec; [|discriminate].
  destruct (dict_get payload "sub") eqn:Hsub; try discriminate.
  intros [= <-]. eauto.
Qed.

(** What [find_one] finds has the field it was asked for, and the field is
    not null. *)
Lemma find_one_email_found db e user :
  find_one_email db (Some e) = Some user →
  In user (users db)
  ∧ ∃ v, user !! "email" = Some v ∧ v ≠ PNone ∧ (∀ a, v = PStr a → a = e).
Proof.
  intros Hfind. apply find_some in Hfind as [Hin Hm]. split; [done|].
  unfold field_matches in Hm.
  destruct (user !! "email") as [v|]; [|discriminate].
  exists v. split; [done|]. split.
  - by intros ->.
  - intros a ->. simpl in Hm. by apply String.eqb_eq in Hm.
Qed.

(** How [get_current_user] comes to return a user. *)
Lemma get_current_user_ok credentials db now u :
  get_current_user credentials db now = Ok u →
  ∃ payload e user v user_data,
    jwt_decode L credentials (jwt_secret_key settings) [jwt_algorithm settings] now
      = Some payload
    ∧ dict_get payload "sub" = PStr e
    ∧ find_one_email db (Some e) = Some user
    ∧ user !! "email" = Some v
    ∧ UserInDB_from_mongo user now = Ok user_data
    ∧ u = set_is_admin user_data (eq_getenv v (getenv "ADMIN_EMAIL")).
Proof.
  unfold get_current_user. step_bind.
  destruct (verify_token credentials now) as [td|] eqn:Hv; [|discriminate].
  apply verify_token_ok in Hv as (payload & e & Hdec & Hsub & ->).
  cbn [td_email].
  destruct (find_one_email db (Some e)) as [user|] eqn:Hfind; [|discriminate].
  unfold getitem.
  destruct (user !! "email") as [v|] eqn:Hemail; [|discriminate].
  destruct (UserInDB_from_mongo user now) as [ud|] eqn:Hud; [|discriminate].
  intros [= <-]. by exists payload, e, user, v, ud.
Qed.

(** And the converse: a valid token whose subject has a document that
    validates resolves to that user. *)
Lemma get_current_user_resolves credentials db now payload e user v user_data :
  jwt_decode L credentials (jwt_secret_key settings) [jwt_algorithm settings] now
    = Some payload →
  payload !! "sub" = Some (PStr e) →
  find_one_email db (Some e) = Some user →
  user !! "email" = Some v →
  UserInDB_from_mongo user now = Ok user_data →
  get_current_user credentials db now
  = Ok (set_is_admin user_data (eq_getenv v (getenv "ADMIN_EMAIL"))).
Proof.
  intros Hdec Hsub Hfind Hemail Hud. unfold get_current_user.
  rewrite (verify_token_sub _ _ _ _ Hdec Hsub). step_bind. cbn [td_email].
  rewrite Hfind. unfold getitem. rewrite Hemail. by rewrite Hud.
Qed.

(** *** The admin-token resolver *)

(** C2 (as the code has it).  Whenever [get_current_admin] turns a token
    down, because it does not decode (bad signature, malformed, expired),
    because the subject is missing, or because there is no [is_admin]
    claim, it raises the 401 exception "Admin access required": the kind is
    [Unauthorized], not [Forbidden]. *)
Theorem resolve_admin_fails_unauthorized (credentials : token L) (now : datetime) :
  match jwt_decode L credentials (jwt_secret_key settings) [jwt_algorithm settings] now with
  | None => True
  | Some payload => dict_get payload "sub" = PNone ∨ payload !! "is_admin" = None
  end →
  get_current_admin credentials now = Raise admin_access_401
  ∧ status_code_of admin_access_401 = Some HTTP_401_UNAUTHORIZED
  ∧ fails_with (get_current_admin credentials now) Unauthorized
  ∧ ¬ fails_with (get_current_admin credentials now) Forbidden.
Proof.
  intros H.
  assert (Hr : get_current_admin credentials now = Raise admin_access_401).
  { unfold get_current_admin, verify_admin_token.
    destruct (jwt_decode L credentials _ _ now) as [payload|]; [|done].
    destruct H as [Hsub | Hadm].
    - by rewrite Hsub.
    - unfold dict_get_default. rewrite Hadm. simpl. by rewrite orb_true_r. }
  split; [done|]. split; [done|]. split.
  - exists admin_access_401. by split.
  - intros (e & He & Hk). rewrite Hr in He. injection He as <-. discriminate.
Qed.


(** *** The user resolver *)

(** C5 (as the code has it).  A token that decodes to a subject with no
    document in the store and a token that does not decode are both turned
    down with status 401 and the same [WWW-Authenticate] header, so both
    are [Unauthorized]; the detail differs, "User not found" against
    "Could not validate credentials". *)
Theorem resolve_user_unknown_subject
    (credentials bad : token L) (db : database) (now : datetime)
    (payload : gmap string pyval) (e : string) :
  jwt_decode L credentials (jwt_secret_key settings) [jwt_algorithm settings] now
    = Some payload →
  payload !! "sub" = Some (PStr e) →
  find_one_email db (Some e) = None →
  jwt_decode L bad (jwt_secret_key settings) [jwt_algorithm settings] now = None →
  get_current_user credentials db now = Raise user_not_found
  ∧ get_current_user bad db now = Raise could_not_validate
  ∧ fails_with (get_current_user credentials db now) Unauthorized
  ∧ fails_with (get_current_user bad db now) Unauthorized
  ∧ status_code_of user_not_found = status_code_of could_not_validate
  ∧ headers_of user_not_found = headers_of could_not_validate
  ∧ detail_of user_not_found = Some "User not found"
  ∧ detail_of could_not_validate = Some "Could not validate credentials".
Proof.
  intros Hdec Hsub Hfind Hbad.
  assert (H1 : get_current_user credentials db now = Raise user_not_found).
  { unfold get_current_user. rewrite (verify_token_sub _ _ _ _ Hdec Hsub).
    step_bind. cbn [td_email]. by rewrite Hfind. }
  assert (H2 : get_current_user bad db now = Raise could_not_validate).
  { unfold get_current_user. by rewrite (verify_token_rejected _ _ Hbad). }
  repeat split; try done.
  - exists user_not_found. by rewrite H1.
  - exists could_not_validate. by rewrite H2.
Qed.

(** *** The admin gate on the dashboard *)

Lemma dashboard_of_user {A} (stats : database → datetime → result A)
    credentials db now u :
  get_current_user credentials db now = Ok u →
  GET_admin_dashboard stats credentials db now
  = get_dashboard_stats stats u db now.
Proof. intros Hu. unfold GET_admin_dashboard. by rewrite Hu. Qed.

(** C3.  The five requests of [routes/admin.py] that check
    [current_user.is_admin] are [verify_admin_access],
    [get_dashboard_stats], [get_product_stats], [get_user_stats] and
    [get_analytics_summary].  With a token that resolves to a user whose
    [is_admin] is false, each of them raises the 403 exception whatever
    the statistics queries would do; with the token of the user whose
    [email] is the configured [ADMIN_EMAIL], each of them gets past the
    check: the four statistics requests return what their queries return
    and [verify_admin_access] returns its acknowledgement with the user's
    address. *)
Theorem dashboard_gate {A} (stats : database → datetime → result A)
    (credentials : token L) (db : database) (now : datetime) :
  (∀ u, get_current_user credentials db now = Ok u →
        u_is_admin u = Some false →
        GET_admin_dashboard stats credentials db now = Raise admin_required
        ∧ fails_with (GET_admin_dashboard stats credentials db now) Forbidden
        ∧ GET_admin_verify credentials db now = Raise admin_required
        ∧ fails_with (GET_admin_verify credentials db now) Forbidden
        ∧ GET_admin_products_stats stats credentials db now = Raise admin_required
        ∧ fails_with (GET_admin_products_stats stats credentials db now) Forbidden
        ∧ GET_admin_users_stats stats credentials db now = Raise admin_required
        ∧ fails_with (GET_admin_users_stats stats credentials db now) Forbidden
        ∧ GET_admin_analytics_summary stats credentials db now = Raise admin_required
        ∧ fails_with (GET_admin_analytics_summary stats credentials db now) Forbidden)
  ∧ (∀ payload e user user_data,
        jwt_decode L credentials (jwt_secret_key settings) [jwt_algorithm settings] now
          = Some payload →
        payload !! "sub" = Some (PStr e) →
        find_one_email db (Some e) = Some user →
        user !! "email" = Some (PStr e) →
        UserInDB_from_mongo user now = Ok user_data →
        getenv "ADMIN_EMAIL" = Some e →
        GET_admin_dashboard stats credentials db now = stats db now
        ∧ GET_admin_verify credentials db now
          = Ok {| av_message := "Admin access verified";
                  av_admin_email := u_email user_data;
                  av_is_admin := Some true |}
        ∧ GET_admin_products_stats stats credentials db now = stats db now
        ∧ GET_admin_users_stats stats credentials db now = stats db now
        ∧ GET_admin_analytics_summary stats credentials db now = stats db now).
Proof.
  split.
  - intros u Hu Hadm.
    assert (Hkind : ∀ B (r : result B), r = Raise admin_required →
                      r = Raise admin_required ∧ fails_with r Forbidden).
    { intros B r ->. split; [done|]. by exists admin_required. }
    repeat match goal with
           | |- (_ = Raise admin_required ∧ fails_with _ Forbidden) ∧ _ => split
           | |- _ = Raise admin_required ∧ fails_with _ Forbidden ∧ _ =>
               apply (and_assoc (_ = _) (fails_with _ _) _)
           end;
      try apply Hkind;
      unfold GET_admin_verify, GET_admin_dashboard, GET_admin_products_stats,
        GET_admin_users_stats, GET_admin_analytics_summary;
      rewrite Hu; step_bind;
      unfold verify_admin_access, get_dashboard_stats, get_product_stats,
        get_user_stats, get_analytics_summary;
      by rewrite Hadm.
  - intros payload e user ud Hdec Hsub Hfind Hemail Hud Henv.
    pose proof (get_current_user_resolves _ _ _ _ _ _ _ _ Hdec Hsub Hfind Hemail Hud)
      as Hu.
    rewrite Henv in Hu. simpl in Hu. rewrite String.eqb_refl in Hu.
    unfold GET_admin_verify, GET_admin_dashboard, GET_admin_products_stats,
      GET_admin_users_stats, GET_admin_analytics_summary.
    rewrite Hu. step_bind.
    unfold verify_admin_access, get_dashboard_stats, get_product_stats,
      get_user_stats, get_analytics_summary.
    by destruct ud.
Qed.

Lemma eq_getenv_unset v : v ≠ PNone → eq_getenv v None = false.
Proof. by destruct v. Qed.

(** C9.  When [ADMIN_EMAIL] is not set: a valid token whose subject has a
    document that validates resolves to that user with [is_admin] false;
    every user [get_current_user] returns has [is_admin] false; and for
    every token that resolves to a user, each of the five requests that
    check [current_user.is_admin], [verify_admin_access],
    [get_dashboard_stats], [get_product_stats], [get_user_stats] and
    [get_analytics_summary], raises the 403 exception. *)
Theorem no_admin_email_no_admin {A} (stats : database → datetime → result A)
    (db : database) (now : datetime) :
  getenv "ADMIN_EMAIL" = None →
  (∀ credentials payload e user user_data,
      jwt_decode L credentials (jwt_secret_key settings) [jwt_algorithm settings] now
        = Some payload →
      payload !! "sub" = Some (PStr e) →
      find_one_email db (Some e) = Some user →
      UserInDB_from_mongo user now = Ok user_data →
      get_current_user credentials db now = Ok (set_is_admin user_data false))
  ∧ (∀ credentials u,
      get_current_user credentials db now = Ok u →
      u_is_admin u = Some false
      ∧ GET_admin_dashboard stats credentials db now = Raise admin_required
      ∧ GET_admin_verify credentials db now = Raise admin_required
      ∧ fails_with (GET_admin_dashboard stats credentials db now) Forbidden
      ∧ fails_with (GET_admin_verify credentials db now) Forbidden
      ∧ GET_admin_products_stats stats credentials db now = Raise admin_required
      ∧ fails_with (GET_admin_products_stats stats credentials db now) Forbidden
      ∧ GET_admin_users_stats stats credentials db now = Raise admin_required
      ∧ fails_with (GET_admin_users_stats stats credentials db now) Forbidden
      ∧ GET_admin_analytics_summary stats credentials db now = Raise admin_required
      ∧ fails_with (GET_admin_analytics_summary stats credentials db now) Forbidden).
Proof.
  intros Henv. split.
  - intros credentials payload e user ud Hdec Hsub Hfind Hud.
    destruct (find_one_email_found _ _ _ Hfind) as (_ & v & Hemail & Hnn & _).
    rewrite (get_current_user_resolves _ _ _ _ _ _ _ _ Hdec Hsub Hfind Hemail Hud).
    by rewrite Henv, eq_getenv_unset.
  - intros credentials u Hu.
    destruct (get_current_user_ok _ _ _ _ Hu)
      as (payload & e & user & v & ud & _ & _ & Hfind & Hemail & _ & ->).
    apply find_one_email_found in Hfind as (_ & v' & Hemail' & Hnn & _).
    rewrite Hemail in Hemail'. injection Hemail' as <-.
    rewrite Henv, eq_getenv_unset in * by done.
    assert (Hd : GET_admin_dashboard stats credentials db now = Raise admin_required)
      by (by rewrite (dashboard_of_user _ _ _ _ _ Hu)).
    assert (Hv : GET_admin_verify credentials db now = Raise admin_required)
      by (unfold GET_admin_verify; by rewrite Hu).
    assert (Hp : GET_admin_products_stats stats credentials db now
                 = Raise admin_required)
      by (unfold GET_admin_products_stats; by rewrite Hu).
    assert (Hs : GET_admin_users_stats stats credentials db now = Raise admin_required)
      by (unfold GET_admin_users_stats; by rewrite Hu).
    assert (Ha : GET_admin_analytics_summary stats credentials db now
                 = Raise admin_required)
      by (unfold GET_admin_analytics_summary; by rewrite Hu).
    rewrite Hd, Hv, Hp, Hs, Ha.
    assert (Hkind : ∀ B, fails_with (@Raise B admin_required) Forbidden)
      by (intros B; by exists admin_required).
    repeat split; try done; apply Hkind.
Qed.

(** *** Admin status is not stored *)

Lemma user_doc_inv user hashed now oid :
  doc_inv (<["_id" := PObjectId oid]> (user_doc user hashed now)).
Proof.
  split.
  - unfold user_doc. by repeat (rewrite lookup_insert_ne; [|done]).
  - exists (uc_email user). unfold user_doc.
    rewrite lookup_insert_ne; [|done]. by rewrite lookup_insert_eq.
Qed.

Lemma lookup_stored_user oid user hashed now k :
  k ≠ "_id" →
  stored_user oid user hashed now !! k = to_bson <$> (user_doc user hashed now !! k).
Proof.
  intros Hk. unfold stored_user. rewrite lookup_insert_ne; [|done].
  apply lookup_fmap.
Qed.

Lemma stored_user_inv user hashed now oid : doc_inv (stored_user oid user hashed now).
Proof.
  destruct (user_doc_inv user hashed now oid) as [Hadm [e He]].
  rewrite lookup_insert_ne in Hadm; [|done]. rewrite lookup_insert_ne in He; [|done].
  split.
  - rewrite lookup_stored_user; [|done]. by rewrite Hadm.
  - exists e. rewrite lookup_stored_user; [|done]. by rewrite He.
Qed.

Lemma store_inv_empty : store_inv empty_db.
Proof. constructor. Qed.

Lemma register_user_inv oid s user db now :
  store_inv db → store_inv (register_user oid s user db now).2.
Proof.
  intros Hinv. unfold register_user.
  destruct (find_one_email db (Some (uc_email user))); [done|].
  destruct (get_password_hash s (uc_password user)) as [hashed|]; [|done].
  unfold insert_one.
  destruct (existsb (has_id oid) (users db)); [done|]. simpl.
  apply Forall_app. split; [done|].
  constructor; [apply stored_user_inv | constructor].
Qed.

Lemma serve_inv db r : store_inv db → store_inv (serve db r).
Proof. destruct r; simpl; auto using register_user_inv. Qed.

Lemma foldl_serve_inv rs : ∀ db, store_inv db → store_inv (foldl serve db rs).
Proof.
  induction rs as [|r rs IH]; intros db Hinv; simpl; [done|].
  apply IH. by apply serve_inv.
Qed.

Lemma reachable_inv db : reachable db → store_inv db.
Proof. intros [rs ->]. apply foldl_serve_inv, store_inv_empty. Qed.

Lemma eq_getenv_str e o : eq_getenv (PStr e) o = bool_decide (o = Some e).
Proof.
  destruct o as [b|]; simpl; [|done].
  destruct (String.eqb_spec e b) as [->|Hne].
  - by rewrite bool_decide_eq_true_2.
  - rewrite bool_decide_eq_false_2; [done|]. by intros [= ->].
Qed.

(** C4.  In every store reachable from the empty one by the requests of
    [routes/auth.py] and [routes/admin.py], no user document has an
    [is_admin] field, the document a registration writes has none, the
    store after a registration is reachable again, and [get_current_user]
    computes [is_admin] as the comparison of the stored [email] with
    [ADMIN_EMAIL]: for every user it returns, and it does return one for a
    valid token whose subject has a document that validates. *)
Theorem admin_status_not_stored (db : database) :
  reachable db →
  (∀ user, In user (users db) → user !! "is_admin" = None)
  ∧ (∀ oid user hashed now,
       (<["_id" := PObjectId oid]> (user_doc user hashed now)) !! "is_admin" = None)
  ∧ (∀ oid s user now,
       reachable (register_user oid s user db now).2)
  ∧ (∀ credentials now u,
       get_current_user credentials db now = Ok u →
       ∃ user e,
         In user (users db)
         ∧ user !! "email" = Some (PStr e)
         ∧ u_is_admin u = Some (bool_decide (getenv "ADMIN_EMAIL" = Some e)))
  ∧ (∀ credentials now payload e user user_data,
       jwt_decode L credentials (jwt_secret_key settings) [jwt_algorithm settings] now
         = Some payload →
       payload !! "sub" = Some (PStr e) →
       find_one_email db (Some e) = Some user →
       UserInDB_from_mongo user now = Ok user_data →
       get_current_user credentials db now
       = Ok (set_is_admin user_data (bool_decide (getenv "ADMIN_EMAIL" = Some e)))).
Proof.
  intros Hreach. pose proof (reachable_inv _ Hreach) as Hinv.
  split; [|split; [|split; [|split]]].
  - intros user Hin.
    unfold store_inv in Hinv. rewrite Forall_forall in Hinv.
    apply list_elem_of_In in Hin. by destruct (Hinv _ Hin).
  - intros oid user hashed now. apply user_doc_inv.
  - intros oid s user now. destruct Hreach as [rs ->].
    exists ((rs ++ [POST_register oid s user now])%list).
    by rewrite foldl_app.
  - intros credentials now u Hu.
    destruct (get_current_user_ok _ _ _ _ Hu)
      as (payload & e0 & user & v & ud & _ & _ & Hfind & Hemail & _ & ->).
    apply find_one_email_found in Hfind as (Hin & _).
    unfold store_inv in Hinv. rewrite Forall_forall in Hinv.
    destruct (Hinv user) as [_ [e He]]; [by apply list_elem_of_In|].
    rewrite Hemail in He. injection He as ->.
    exists user, e. split; [done|]. split; [done|].
    cbn [u_is_admin set_is_admin]. by rewrite eq_getenv_str.
  - intros credentials now payload e user ud Hdec Hsub Hfind Hud.
    destruct (find_one_email_found _ _ _ Hfind) as (Hin & v & Hemail & _ & Hv).
    unfold store_inv in Hinv. rewrite Forall_forall in Hinv.
    destruct (Hinv user) as [_ [e' He']]; [by apply list_elem_of_In|].
    rewrite Hemail in He'. injection He' as ->.
    rewrite (Hv e' eq_refl) in *.
    rewrite (get_current_user_resolves _ _ _ _ _ _ _ _ Hdec Hsub Hfind Hemail Hud).
    by rewrite eq_getenv_str.
Qed.

(** *** Issuing tokens *)

Lemma token_expire_nonzero d now : d ≠ 0 → token_expire (Some d) now = now + d.
Proof.
  intros Hd. unfold token_expire, timedelta_truthy.
  destruct (Z.eqb_spec d 0); [done|reflexivity].
Qed.

Lemma token_expire_default now :
  token_expire None now = now + timedelta_minutes (jwt_expiration_time settings).
Proof. reflexivity. Qed.

Lemma to_encode_exp data expires_delta now :
  to_encode data expires_delta now !! "exp"
  = Some (PDatetime (token_expire expires_delta now)).
Proof. unfold to_encode. by rewrite lookup_insert_eq. Qed.

Lemma to_encode_other data expires_delta now k :
  k ≠ "exp" → to_encode data expires_delta now !! k = data !! k.
Proof. intros Hk. unfold to_encode. by rewrite lookup_insert_ne. Qed.

(** A token issued for claims with a string subject verifies, at any time
    up to its expiry, to that subject. *)
Lemma issue_then_verify data sub expires_delta now0 now tok :
  jose_decode_sound → jose_decode_complete →
  data !! "sub" = Some (PStr sub) →
  (∀ k, k ∈ other_registered → data !! k = None) →
  create_access_token data expires_delta now0 = Ok tok →
  now ≤ token_expire expires_delta now0 →
  verify_token tok now = Ok {| td_email := Some sub |}.
Proof.
  intros Hsound Hcomplete Hsub Hreg Hissue Hnow.
  unfold create_access_token in Hissue.
  destruct (Hcomplete _ _ _ _ sub (token_expire expires_delta now0) now Hissue)
    as [payload Hdec].
  - by rewrite to_encode_other.
  - apply to_encode_exp.
  - intros k Hk. rewrite to_encode_other; [by apply Hreg|].
    intros ->. not_listed.
  - done.
  - apply (verify_token_sub _ _ _ _ Hdec).
    rewrite (Hsound _ _ _ _ _ _ _ _ Hissue Hdec "sub").
    + by rewrite to_encode_other.
    + not_listed.
Qed.

(** *** The two token shapes against the two resolvers *)

(** The token a login returns was issued for the claims [{"sub": ...}] with
    the default lifetime. *)
Lemma login_user_issues user_credentials db now0 t :
  login_user user_credentials db now0 = Ok t →
  ∃ sub, create_access_token (<["sub" := sub]> ∅) None now0 = Ok (access_token t).
Proof.
  unfold login_user.
  destruct (find_one_email db _) as [user|]; [|discriminate].
  unfold getitem.
  destruct (user !! "hashed_password") as [h|]; step_bind; [|discriminate].
  destruct (verify_password _ h) as [[]|]; cbn [negb]; try discriminate.
  destruct (user !! "email") as [v|]; [|discriminate].
  destruct (create_access_token _ None now0) as [tok|] eqn:Hissue; [|discriminate].
  intros [= <-]. by exists v.
Qed.

(** C1 (as the code has it).  A token issued for the claims of the login
    path, the subject and the expiry, and so the token a login returns, is
    turned down by [get_current_admin] at any time.  A token issued by the admin path is
    turned down by [get_current_user] when the store has no document for
    its subject; when the token still decodes and the store has such a
    document that validates, [get_current_user] returns that user. *)
Theorem token_paths (Hsound : jose_decode_sound) :
  (∀ (sub : pyval) (now0 now : datetime) (tok : token L),
      create_access_token (<["sub" := sub]> ∅) None now0 = Ok tok →
      get_current_admin tok now = Raise admin_access_401)
  ∧ (∀ (user_credentials : UserLogin) (db : database) (now0 now : datetime)
       (t : Token (token L)),
      login_user user_credentials db now0 = Ok t →
      get_current_admin (access_token t) now = Raise admin_access_401)
  ∧ (∀ (email : string) (now0 now : datetime) (tok : token L) (db : database),
      create_admin_token email now0 = Ok tok →
      (find_one_email db (Some email) = None →
       fails_with (get_current_user tok db now) Unauthorized)
      ∧ (∀ user v user_data,
           is_Some (jwt_decode L tok (jwt_secret_key settings)
                      [jwt_algorithm settings] now) →
           find_one_email db (Some email) = Some user →
           user !! "email" = Some v →
           UserInDB_from_mongo user now = Ok user_data →
           get_current_user tok db now
           = Ok (set_is_admin user_data (eq_getenv v (getenv "ADMIN_EMAIL"))))).
Proof.
  assert (Hlogin : ∀ (sub : pyval) (now0 now : datetime) (tok : token L),
             create_access_token (<["sub" := sub]> ∅) None now0 = Ok tok →
             get_current_admin tok now = Raise admin_access_401).
  { intros sub now0 now tok Hissue.
    unfold get_current_admin, verify_admin_token.
    destruct (jwt_decode L tok _ _ now) as [payload|] eqn:Hdec; [|done].
    unfold create_access_token in Hissue.
    assert (Hadm : payload !! "is_admin" = None).
    { rewrite (Hsound _ _ _ _ _ _ _ _ Hissue Hdec "is_admin").
      - rewrite to_encode_other; [|done]. by rewrite lookup_insert_ne.
      - not_listed. }
    unfold dict_get_default. rewrite Hadm. simpl. by rewrite orb_true_r. }
  split; [exact Hlogin|]. split.
  - intros user_credentials db now0 now t Ht.
    destruct (login_user_issues _ _ _ _ Ht) as [sub Hissue].
    by apply (Hlogin sub now0).
  - intros email now0 now tok db Hissue.
    unfold create_admin_token, create_access_token in Hissue.
    assert (Hsub : ∀ payload,
               jwt_decode L tok (jwt_secret_key settings)
                 [jwt_algorithm settings] now = Some payload →
               payload !! "sub" = Some (PStr email)).
    { intros payload Hdec.
      rewrite (Hsound _ _ _ _ _ _ _ _ Hissue Hdec "sub").
      - rewrite to_encode_other; [|done]. unfold admin_token_data.
        by rewrite lookup_insert_eq.
      - not_listed. }
    split.
    + intros Hfind.
      destruct (jwt_decode L tok (jwt_secret_key settings)
                  [jwt_algorithm settings] now) as [payload|] eqn:Hdec.
      * exists user_not_found. split; [|done].
        unfold get_current_user.
        rewrite (verify_token_sub _ _ _ _ Hdec (Hsub _ eq_refl)).
        step_bind. cbn [td_email]. by rewrite Hfind.
      * exists could_not_validate. split; [|done].
        unfold get_current_user. by rewrite (verify_token_rejected _ _ Hdec).
    + intros user v ud [payload Hdec] Hfind Hemail Hud.
      apply (get_current_user_resolves _ _ _ payload email user v ud); try done.
      by apply Hsub.
Qed.

(** *** The credential hasher *)



(** *** Registration and login *)

Lemma find_app_fresh {X} (f : X → bool) (l : list X) (d : X) :
  find f l = None → f d = true → find f (l ++ [d]) = Some d.
Proof.
  intros Hnone Hd. induction l as [|x l IH]; simpl in *.
  - by rewrite Hd.
  - destruct (f x); [discriminate|]. by apply IH.
Qed.

Lemma existsb_find_none {X} (f : X → bool) (l : list X) :
  existsb f l = false → find f l = None.
Proof.
  induction l as [|x l IH]; simpl; [done|].
  destruct (f x); [discriminate|]. exact IH.
Qed.

Lemma stored_user_email oid user hashed now :
  stored_user oid user hashed now !! "email" = Some (PStr (uc_email user)).
Proof.
  rewrite lookup_stored_user; [|done]. unfold user_doc.
  by rewrite lookup_insert_eq.
Qed.

Lemma stored_user_hashed oid user hashed now :
  stored_user oid user hashed now !! "hashed_password" = Some (PStr hashed).
Proof.
  rewrite lookup_stored_user; [|done]. unfold user_doc.
  rewrite lookup_insert_ne; [|done]. by rewrite lookup_insert_eq.
Qed.

Lemma field_matches_email user hashed now oid :
  field_matches "email" (uc_email user) (stored_user oid user hashed now) = true.
Proof.
  unfold field_matches. rewrite stored_user_email. simpl. apply String.eqb_refl.
Qed.

Lemma has_id_inserted oid (d : gmap string pyval) :
  has_id oid (<["_id" := PObjectId oid]> d) = true.
Proof. unfold has_id. rewrite lookup_insert_eq. apply String.eqb_refl. Qed.

(** How [register_user] comes to return a response. *)
Lemma register_user_ok oid s user db now r db' :
  register_user oid s user db now = (Ok r, db') →
  find_one_email db (Some (uc_email user)) = None
  ∧ existsb (has_id oid) (users db) = false
  ∧ ∃ hashed,
      get_password_hash s (uc_password user) = Ok hashed
      ∧ db' = {| users := users db ++ [stored_user oid user hashed now] |}.
Proof.
  unfold register_user.
  destruct (find_one_email db (Some (uc_email user))); [discriminate|].
  destruct (get_password_hash s (uc_password user)) as [hashed|]; [|discriminate].
  unfold insert_one.
  destruct (existsb (has_id oid) (users db)); [discriminate|].
  intros [= _ <-]. split; [done|]. split; [done|]. by exists hashed.
Qed.

(** X8.  When the address is free, the password hashes and the generated
    identifier is new, registration appends one document to the store, with
    exactly the six fields of [user_doc], the hash under [hashed_password]
    and [created_at] cut to the millisecond; the response is built from that
    document as [find_one] returns it, and the document stays in the store
    whatever the construction of the response does. *)
Theorem register_user_appends
    (oid : string) (s : salt L) (user : UserCreate) (db : database)
    (now : datetime) (hashed : string) :
  find_one_email db (Some (uc_email user)) = None →
  get_password_hash s (uc_password user) = Ok hashed →
  existsb (has_id oid) (users db) = false →
  let d := stored_user oid user hashed now in
  register_user oid s user db now
  = (UserResponse_cls L (<["_id" := PStr (py_str L (PObjectId oid))]> d) now,
     {| users := users db ++ [d] |})
  ∧ dom d = {["_id"; "email"; "hashed_password"; "first_name"; "phone"; "created_at"]}
  ∧ d !! "hashed_password" = Some (PStr hashed)
  ∧ d !! "created_at" = Some (PDatetime (bson_datetime now))
  ∧ find_one_id {| users := users db ++ [d] |} oid = Some d.
Proof.
  intros Hfree Hhash Hfresh d.
  assert (Hfind : find_one_id {| users := users db ++ [d] |} oid = Some d).
  { unfold find_one_id. cbn [users].
    apply find_app_fresh; [by apply existsb_find_none | apply has_id_inserted]. }
  split; [|split; [|split; [|split]]].
  - unfold register_user. rewrite Hfree, Hhash. unfold insert_one. rewrite Hfresh.
    fold (stored_user oid user hashed now). fold d. rewrite Hfind.
    unfold UserResponse_from_mongo, stringify_id, dict_get.
    subst d. unfold stored_user. by rewrite lookup_insert_eq.
  - subst d. unfold stored_user, user_doc.
    rewrite dom_insert_L, dom_fmap_L, !dom_insert_L, dom_empty_L. set_solver.
  - apply stored_user_hashed.
  - subst d. rewrite lookup_stored_user; [|done]. unfold user_doc.
    by repeat (rewrite lookup_insert_ne; [|done]); rewrite lookup_insert_eq.
  - done.
Qed.

(** X4.  After a registration that returned a response, any further
    registration under the same address, whatever its password, name or
    phone, is refused with the 400 exception and leaves the store as it
    is. *)
Theorem register_user_once
    (oid oid' : string) (s s' : salt L) (user user' : UserCreate)
    (db db' : database) (now now' : datetime) (r : UserResponse) :
  register_user oid s user db now = (Ok r, db') →
  uc_email user' = uc_email user →
  register_user oid' s' user' db' now'
  = (Raise (EHTTP {| status_code := HTTP_400_BAD_REQUEST;
                     detail := "Email already registered";
                     headers := [] |}), db').
Proof.
  intros Hreg Hsame.
  apply register_user_ok in Hreg as (Hfree & _ & hashed & _ & ->).
  unfold register_user. rewrite Hsame.
  unfold find_one_email in *. cbn [users].
  by rewrite (find_app_fresh _ _ _ Hfree (field_matches_email user hashed now oid)).
Qed.

(** *** No two users share an address or an identifier *)










(** *** Logging in *)

(** How [login_user] comes to return a token. *)
Lemma login_user_ok user_credentials db now0 t :
  login_user user_credentials db now0 = Ok t →
  ∃ user hashed sub,
    find_one_email db (Some (ul_email user_credentials)) = Some user
    ∧ user !! "hashed_password" = Some hashed
    ∧ verify_password (ul_password user_credentials) hashed = Ok true
    ∧ user !! "email" = Some sub
    ∧ create_access_token (<["sub" := sub]> ∅) None now0 = Ok (access_token t)
    ∧ token_type t = "bearer".
Proof.
  unfold login_user.
  destruct (find_one_email db _) as [user|] eqn:Hfind; [|discriminate].
  unfold getitem.
  destruct (user !! "hashed_password") as [h|] eqn:Hh; step_bind; [|discriminate].
  destruct (verify_password _ h) as [[]|] eqn:Hv; cbn [negb]; try discriminate.
  destruct (user !! "email") as [v|] eqn:He; [|discriminate].
  destruct (create_access_token _ None now0) as [tok|] eqn:Hissue; [|discriminate].
  intros [= <-]. by exists user, h, v.
Qed.

(** X7.  [login_user] returns a token only when the store has a document
    for the address and the hasher accepted the password against the hash
    stored in it; an unknown address and a password the hasher rejects are
    answered by one and the same 401 exception. *)
Theorem login_user_sound_and_silent
    (user_credentials : UserLogin) (db : database) (now0 : datetime) :
  (∀ t, login_user user_credentials db now0 = Ok t →
        ∃ user hashed,
          find_one_email db (Some (ul_email user_credentials)) = Some user
          ∧ user !! "hashed_password" = Some hashed
          ∧ verify_password (ul_password user_credentials) hashed = Ok true)
  ∧ (find_one_email db (Some (ul_email user_credentials)) = None →
     login_user user_credentials db now0 = Raise incorrect_credentials)
  ∧ (∀ user hashed,
        find_one_email db (Some (ul_email user_credentials)) = Some user →
        user !! "hashed_password" = Some hashed →
        verify_password (ul_password user_credentials) hashed = Ok false →
        login_user user_credentials db now0 = Raise incorrect_credentials)
  ∧ kind_of incorrect_credentials = Unauthorized.
Proof.
  split; [|split; [|split]].
  - intros t Ht.
    destruct (login_user_ok _ _ _ _ Ht) as (user & h & _ & Hf & Hh & Hv & _).
    by exists user, h.
  - intros Hfind. unfold login_user. by rewrite Hfind.
  - intros user h Hfind Hh Hv. unfold login_user. rewrite Hfind.
    unfold getitem. rewrite Hh. step_bind. by rewrite Hv.
  - reflexivity.
Qed.




(** In a reachable store the token of a login verifies, up to its expiry,
    to the address that logged in, and the document found for that address
    carries it as a string. *)
Lemma login_token_verifies user_credentials db now0 now t :
  jose_decode_sound → jose_decode_complete →
  reachable db →
  login_user user_credentials db now0 = Ok t →
  now ≤ now0 + timedelta_minutes (jwt_expiration_time settings) →
  ∃ user,
    find_one_email db (Some (ul_email user_credentials)) = Some user
    ∧ user !! "email" = Some (PStr (ul_email user_credentials))
    ∧ verify_token (access_token t) now
      = Ok {| td_email := Some (ul_email user_credentials) |}.
Proof.
  intros Hsound Hcomplete Hreach Hlogin Hnow.
  destruct (login_user_ok _ _ _ _ Hlogin)
    as (user & h & sub & Hfind & _ & _ & Hemail & Hissue & _).
  exists user. split; [done|].
  destruct (find_one_email_found _ _ _ Hfind) as (Hin & v & Hv & _ & Hmatch).
  rewrite Hemail in Hv. injection Hv as <-.
  pose proof (reachable_inv _ Hreach) as Hinv.
  unfold store_inv in Hinv. rewrite Forall_forall in Hinv.
  destruct (Hinv user) as [_ [e He]]; [by apply list_elem_of_In|].
  rewrite Hemail in He. injection He as ->.
  rewrite (Hmatch e eq_refl) in *. split; [done|].
  apply (issue_then_verify (<["sub" := PStr (ul_email user_credentials)]> ∅)
           (ul_email user_credentials) None now0 now (access_token t)
           Hsound Hcomplete); try done.
  intros k Hk. rewrite lookup_insert_ne; [done|]. intros <-. not_listed.
Qed.

(** X2.  In a reachable store, the token a login returned resolves, at any
    time up to the configured lifetime after the login, to the document of
    the address that logged in: [get_current_user] returns that user, with
    [is_admin] telling whether the address is [ADMIN_EMAIL], whenever the
    document validates. *)
Theorem login_token_resolves (Hsound : jose_decode_sound)
    (Hcomplete : jose_decode_complete)
    (user_credentials : UserLogin) (db : database) (now0 now : datetime)
    (t : Token (token L)) :
  reachable db →
  login_user user_credentials db now0 = Ok t →
  now ≤ now0 + timedelta_minutes (jwt_expiration_time settings) →
  ∃ user,
    find_one_email db (Some (ul_email user_credentials)) = Some user
    ∧ get_current_user (access_token t) db now
      = (user_data ← UserInDB_from_mongo user now;
         Ok (set_is_admin user_data
               (bool_decide (getenv "ADMIN_EMAIL"
                             = Some (ul_email user_credentials))))).
Proof.
  intros Hreach Hlogin Hnow.
  destruct (login_token_verifies _ _ now0 now _ Hsound Hcomplete Hreach Hlogin Hnow)
    as (user & Hfind & Hemail & Hverify).
  exists user. split; [done|].
  unfold get_current_user. rewrite Hverify. step_bind. cbn [td_email].
  rewrite Hfind. unfold getitem. rewrite Hemail.
  by rewrite eq_getenv_str.
Qed.

(** *** The admin token and the admin credentials *)

(** The token of the admin path decodes, up to its expiry, to a payload
    that carries the address and the flag. *)
Lemma admin_token_decodes email now0 now tok :
  jose_decode_sound → jose_decode_complete →
  create_admin_token email now0 = Ok tok →
  now ≤ now0 + timedelta_minutes (jwt_expiration_time settings) →
  ∃ payload,
    jwt_decode L tok (jwt_secret_key settings) [jwt_algorithm settings] now
      = Some payload
    ∧ payload !! "sub" = Some (PStr email)
    ∧ payload !! "is_admin" = Some (PBool true).
Proof.
  intros Hsound Hcomplete Hissue Hnow.
  unfold create_admin_token, create_access_token in Hissue.
  destruct (Hcomplete _ _ _ _ email (token_expire None now0) now Hissue)
    as [payload Hdec].
  - rewrite to_encode_other; [|done]. unfold admin_token_data.
    by rewrite lookup_insert_eq.
  - apply to_encode_exp.
  - intros k Hk. rewrite to_encode_other; [|intros ->; not_listed].
    unfold admin_token_data.
    rewrite !lookup_insert_ne; [done| |]; intros <-; not_listed.
  - exact Hnow.
  - exists payload. split; [done|].
    rewrite (Hsound _ _ _ _ _ _ _ _ Hissue Hdec "sub"); [|not_listed].
    rewrite (Hsound _ _ _ _ _ _ _ _ Hissue Hdec "is_admin"); [|not_listed].
    rewrite !to_encode_other; [|done|done]. unfold admin_token_data.
    rewrite lookup_insert_eq.
    rewrite lookup_insert_ne; [|done]. by rewrite lookup_insert_eq.
Qed.

Lemma login_token_refused sub now0 now tok :
  jose_decode_sound →
  create_access_token (<["sub" := sub]> ∅) None now0 = Ok tok →
  get_current_admin tok now = Raise admin_access_401.
Proof.
  intros Hsound Hissue.
  unfold get_current_admin, verify_admin_token.
  destruct (jwt_decode L tok _ _ now) as [payload|] eqn:Hdec; [|done].
  unfold create_access_token in Hissue.
  assert (Hadm : payload !! "is_admin" = None).
  { rewrite (Hsound _ _ _ _ _ _ _ _ Hissue Hdec "is_admin").
    - rewrite to_encode_other; [|done]. by rewrite lookup_insert_ne.
    - not_listed. }
  unfold dict_get_default. rewrite Hadm. simpl. by rewrite orb_true_r.
Qed.


(** X1.  The token [create_admin_token] issues for an address is accepted
    by [get_current_admin] at any time up to the configured lifetime after
    it was issued, and what comes back is that address with [is_admin]
    true; the store is not consulted. *)
Theorem admin_token_round_trip (Hsound : jose_decode_sound)
    (Hcomplete : jose_decode_complete)
    (email : string) (now0 now : datetime) (tok : token L) :
  create_admin_token email now0 = Ok tok →
  now ≤ now0 + timedelta_minutes (jwt_expiration_time settings) →
  get_current_admin tok now
  = Ok {| ad_email := PStr email; ad_is_admin := PBool true |}.
Proof.
  intros Hissue Hnow.
  destruct (admin_token_decodes email now0 now tok Hsound Hcomplete Hissue Hnow)
    as (payload & Hdec & Hsub & Hflag).
  unfold get_current_admin, verify_admin_token, dict_get, dict_get_default.
  by rewrite Hdec, Hsub, Hflag.
Qed.

(** X3.  [verify_admin_credentials] accepts a pair exactly when both
    [ADMIN_EMAIL] and [ADMIN_PASSWORD] are set and equal to it; with either
    variable unset it accepts nothing. *)
Theorem verify_admin_credentials_iff (email password : string) :
  (verify_admin_credentials email password = true
   ↔ getenv "ADMIN_EMAIL" = Some email ∧ getenv "ADMIN_PASSWORD" = Some password)
  ∧ (getenv "ADMIN_EMAIL" = None ∨ getenv "ADMIN_PASSWORD" = None →
     verify_admin_credentials email password = false).
Proof.
  unfold verify_admin_credentials. rewrite !eq_getenv_str. split.
  - rewrite andb_true_iff, !bool_decide_eq_true. tauto.
  - intros [H | H]; rewrite H; simpl; [done | by rewrite andb_false_r].
Qed.

(** *** Who gets past the admin checks of [routes/admin.py] *)

Lemma resolved_admin credentials db now u :
  get_current_user credentials db now = Ok u →
  optbool_truthy (u_is_admin u) = true →
  ∃ payload e user,
    jwt_decode L credentials (jwt_secret_key settings) [jwt_algorithm settings] now
      = Some payload
    ∧ dict_get payload "sub" = PStr e
    ∧ find_one_email db (Some e) = Some user
    ∧ user !! "email" = Some (PStr e)
    ∧ getenv "ADMIN_EMAIL" = Some e.
Proof.
  intros Hu Hadm.
  destruct (get_current_user_ok _ _ _ _ Hu)
    as (payload & e & user & v & ud & Hdec & Hsub & Hfind & Hemail & _ & ->).
  destruct (find_one_email_found _ _ _ Hfind) as (_ & v' & Hv' & Hnn & Hmatch).
  rewrite Hemail in Hv'. injection Hv' as <-.
  assert (Heq : eq_getenv v (getenv "ADMIN_EMAIL") = true) by exact Hadm.
  clear Hadm. unfold eq_getenv in Heq.
  destruct v as [| | | |a| | | |]; try discriminate; try done;
    destruct (getenv "ADMIN_EMAIL") as [b|] eqn:Henv; try discriminate.
  apply String.eqb_eq in Heq as <-.
  rewrite (Hmatch a eq_refl) in *.
  by exists payload, e, user.
Qed.

Lemma gated_ok {B} (handler : UserInDB → result B) (P : Prop)
    (credentials : token L) (db : database) (now : datetime) (a : B) :
  (∀ u, handler u = Ok a → optbool_truthy (u_is_admin u) = true) →
  (∀ u, get_current_user credentials db now = Ok u →
        optbool_truthy (u_is_admin u) = true → P) →
  (current_user ← get_current_user credentials db now; handler current_user) = Ok a →
  P.
Proof.
  intros Hh HP. step_bind.
  destruct (get_current_user credentials db now) as [u|] eqn:Hu; [|discriminate].
  intros Ha. apply (HP u eq_refl). by apply Hh.
Qed.

(** X9.  The five requests of [routes/admin.py] all raise the 403
    exception for a resolved user whose [is_admin] is false, and when one of
    them returns a result the token's subject has a user document whose
    address is the configured [ADMIN_EMAIL]. *)
Theorem admin_routes_gate {A} (stats : database → datetime → result A)
    (credentials : token L) (db : database) (now : datetime) :
  (∀ u, get_current_user credentials db now = Ok u →
        u_is_admin u = Some false →
        GET_admin_verify credentials db now = Raise admin_required
        ∧ GET_admin_dashboard stats credentials db now = Raise admin_required
        ∧ GET_admin_products_stats stats credentials db now = Raise admin_required
        ∧ GET_admin_users_stats stats credentials db now = Raise admin_required
        ∧ GET_admin_analytics_summary stats credentials db now = Raise admin_required)
  ∧ (∀ a r,
        GET_admin_verify credentials db now = Ok r
        ∨ GET_admin_dashboard stats credentials db now = Ok a
        ∨ GET_admin_products_stats stats credentials db now = Ok a
        ∨ GET_admin_users_stats stats credentials db now = Ok a
        ∨ GET_admin_analytics_summary stats credentials db now = Ok a →
        ∃ payload e user,
          jwt_decode L credentials (jwt_secret_key settings)
            [jwt_algorithm settings] now = Some payload
          ∧ dict_get payload "sub" = PStr e
          ∧ find_one_email db (Some e) = Some user
          ∧ user !! "email" = Some (PStr e)
          ∧ getenv "ADMIN_EMAIL" = Some e).
Proof.
  split.
  - intros u Hu Hadm.
    unfold GET_admin_verify, GET_admin_dashboard, GET_admin_products_stats,
      GET_admin_users_stats, GET_admin_analytics_summary.
    rewrite Hu. step_bind.
    unfold verify_admin_access, get_dashboard_stats, get_product_stats,
      get_user_stats, get_analytics_summary.
    by rewrite Hadm.
  - intros a r H.
    assert (Hgate : ∀ u (x : result A),
               (if negb (optbool_truthy (u_is_admin u)) then Raise admin_required
                else x) = Ok a →
               optbool_truthy (u_is_admin u) = true).
    { intros u x. by destruct (optbool_truthy (u_is_admin u)). }
    destruct H as [H | [H | [H | [H | H]]]];
      revert H; apply gated_ok;
      try (intros u; apply Hgate);
      try (intros u; apply resolved_admin).
    intros u. unfold verify_admin_access.
    by destruct (optbool_truthy (u_is_admin u)).
Qed.

(** *** Collections: the first selected document *)

Lemma find_split {X} (sel : X → bool) (c : list X) (d : X) :
  find sel c = Some d →
  ∃ pre post, c = (pre ++ d :: post)%list
              ∧ Forall (λ x, sel x = false) pre ∧ sel d = true.
Proof.
  induction c as [|x c IH]; simpl; [discriminate|].
  destruct (sel x) eqn:Hx.
  - intros [= ->]. by exists [], c.
  - intros Hf. destruct (IH Hf) as (pre & post & -> & Hpre & Hd).
    exists (x :: pre), post. split; [done|]. split; [by constructor | done].
Qed.

Lemma find_middle {X} (sel : X → bool) (pre post : list X) (d : X) :
  Forall (λ x, sel x = false) pre → sel d = true →
  find sel (pre ++ d :: post) = Some d.
Proof.
  intros Hpre Hd. induction Hpre as [|x pre Hx _ IH]; simpl.
  - by rewrite Hd.
  - by rewrite Hx.
Qed.

Lemma find_nowhere {X} (sel : X → bool) (c : list X) :
  Forall (λ x, sel x = false) c → find sel c = None.
Proof. induction 1 as [|x c Hx _ IH]; simpl; [done|]. by rewrite Hx. Qed.

Lemma update_one_none sel fields c :
  find sel c = None → update_one sel fields c = (0%nat, c).
Proof.
  induction c as [|x c IH]; simpl; [done|].
  destruct (sel x); [discriminate|]. intros Hf. by rewrite (IH Hf).
Qed.

Lemma update_one_middle sel fields pre d post :
  Forall (λ x, sel x = false) pre → sel d = true →
  update_one sel fields (pre ++ d :: post)
  = (1%nat, (pre ++ apply_set fields d :: post)%list).
Proof.
  intros Hpre Hd. induction Hpre as [|x pre Hx _ IH]; simpl.
  - by rewrite Hd.
  - by rewrite Hx, IH.
Qed.

Lemma delete_one_none sel c :
  find sel c = None → delete_one sel c = (0%nat, c).
Proof.
  induction c as [|x c IH]; simpl; [done|].
  destruct (sel x); [discriminate|]. intros Hf. by rewrite (IH Hf).
Qed.

Lemma delete_one_middle sel pre (d : gmap string pyval) post :
  Forall (λ x, sel x = false) pre → sel d = true →
  delete_one sel (pre ++ d :: post) = (1%nat, (pre ++ post)%list).
Proof.
  intros Hpre Hd. induction Hpre as [|x pre Hx _ IH]; simpl.
  - by rewrite Hd.
  - by rewrite Hx, IH.
Qed.

Lemma lookup_apply_set fields d k :
  apply_set fields d !! k
  = match fields !! k with
    | Some v => Some (to_bson v)
    | None => d !! k
    end.
Proof.
  unfold apply_set. rewrite lookup_union, lookup_fmap.
  destruct (fields !! k); simpl; [by destruct (d !! k)|].
  by destruct (d !! k).
Qed.

Lemma lookup_set_some k k' o (m : gmap string pyval) :
  set_some k o m !! k'
  = if decide (k = k') then match o with Some v => Some v | None => m !! k' end
    else m !! k'.
Proof.
  unfold set_some. destruct o as [v|]; [|by case_decide; subst].
  rewrite lookup_insert. by case_decide.
Qed.

Lemma has_id_apply_set oid fields d :
  fields !! "_id" = None → has_id oid (apply_set fields d) = has_id oid d.
Proof. intros Hf. unfold has_id. by rewrite lookup_apply_set, Hf. Qed.

Lemma order_update_data_id order_update now :
  order_update_data order_update now !! "_id" = None.
Proof.
  unfold order_update_data.
  rewrite lookup_insert_ne; [|done]. rewrite !lookup_set_some.
  by repeat case_decide.
Qed.

(** *** Updating and deleting an order *)

(** X13.  For a valid identifier whose first document in the collection is
    [d], [update_order] replaces [d] in place and leaves every other
    document and the order of the collection as they are; in the new
    document [updated_at] is the time of the call (to the millisecond), a
    given status or note is set, a status or note that was not given keeps
    its old value, and no other field changes; the response is built from
    the new document. *)
Theorem update_order_effect
    (order_id : string) (order_update : OrderUpdate)
    (pre post : list (gmap string pyval)) (d : gmap string pyval) (now : datetime) :
  ObjectId_is_valid OID order_id = true →
  Forall (λ x, has_id (ObjectId OID order_id) x = false) pre →
  has_id (ObjectId OID order_id) d = true →
  let d' := apply_set (order_update_data order_update now) d in
  update_order order_id order_update (pre ++ d :: post) now
  = (OrderResponse_from_mongo (Some d'), (pre ++ d' :: post)%list)
  ∧ d' !! "updated_at" = Some (PDatetime (bson_datetime now))
  ∧ d' !! "status"
    = match ou_status order_update with
      | Some st => Some (PStr (OrderStatus_value st))
      | None => d !! "status"
      end
  ∧ d' !! "admin_notes"
    = match ou_admin_notes order_update with
      | Some n => Some (PStr n)
      | None => d !! "admin_notes"
      end
  ∧ (∀ k, k ≠ "updated_at" → k ≠ "status" → k ≠ "admin_notes" → d' !! k = d !! k).
Proof.
  intros Hvalid Hpre Hd d'.
  assert (Hd' : has_id (ObjectId OID order_id) d' = true).
  { subst d'. by rewrite has_id_apply_set; [|apply order_update_data_id]. }
  split; [|split; [|split; [|split]]].
  - unfold update_order. rewrite Hvalid. cbn [negb].
    rewrite (find_middle _ _ _ _ Hpre Hd).
    rewrite (update_one_middle _ _ _ _ _ Hpre Hd). cbn [snd]. fold d'.
    by rewrite (find_middle _ _ _ _ Hpre Hd').
  - subst d'. rewrite lookup_apply_set. unfold order_update_data.
    by rewrite lookup_insert_eq.
  - subst d'. rewrite lookup_apply_set. unfold order_update_data.
    rewrite lookup_insert_ne; [|done]. rewrite !lookup_set_some.
    repeat case_decide; try done.
    by destruct (ou_status order_update).
  - subst d'. rewrite lookup_apply_set. unfold order_update_data.
    rewrite lookup_insert_ne; [|done]. rewrite !lookup_set_some.
    repeat case_decide; try done.
    by destruct (ou_admin_notes order_update).
  - intros k H1 H2 H3. subst d'. rewrite lookup_apply_set. unfold order_update_data.
    rewrite lookup_insert_ne; [|done]. rewrite !lookup_set_some.
    by repeat case_decide.
Qed.

(** X15.  For a valid identifier whose first document in the collection is
    [d], [delete_order] removes that one document and keeps the others in
    order; when no later document carries the identifier, the order can no
    longer be read, updated or deleted: each raises the 404 exception and
    leaves the collection alone. *)
Theorem delete_order_effect
    (order_id : string) (pre post : list (gmap string pyval))
    (d : gmap string pyval) (order_update : OrderUpdate) (now : datetime) :
  ObjectId_is_valid OID order_id = true →
  Forall (λ x, has_id (ObjectId OID order_id) x = false) pre →
  has_id (ObjectId OID order_id) d = true →
  delete_order order_id (pre ++ d :: post)
  = (Ok "Order deleted successfully", (pre ++ post)%list)
  ∧ (Forall (λ x, has_id (ObjectId OID order_id) x = false) post →
     get_order order_id (pre ++ post) = Raise (not_found "Order not found")
     ∧ update_order order_id order_update (pre ++ post) now
       = (Raise (not_found "Order not found"), (pre ++ post)%list)
     ∧ delete_order order_id (pre ++ post)
       = (Raise (not_found "Order not found"), (pre ++ post)%list)).
Proof.
  intros Hvalid Hpre Hd. split.
  - unfold delete_order. rewrite Hvalid. cbn [negb].
    by rewrite (delete_one_middle _ _ _ _ Hpre Hd).
  - intros Hpost.
    assert (Hnone : find (has_id (ObjectId OID order_id)) (pre ++ post) = None).
    { apply find_nowhere, Forall_app. by split. }
    unfold get_order, update_order, delete_order. rewrite Hvalid. cbn [negb].
    by rewrite Hnone, (delete_one_none _ _ Hnone).
Qed.

(** X14.  An identifier [ObjectId.is_valid] refuses makes [get_order],
    [update_order] and [delete_order] raise the 400 exception, a valid one
    that no document carries makes them raise the 404 exception, and in
    neither case is the collection changed. *)
Theorem order_id_errors
    (order_id : string) (order_update : OrderUpdate)
    (orders : list (gmap string pyval)) (now : datetime) :
  (ObjectId_is_valid OID order_id = false →
     get_order order_id orders = Raise (bad_request "Invalid order ID")
     ∧ update_order order_id order_update orders now
       = (Raise (bad_request "Invalid order ID"), orders)
     ∧ delete_order order_id orders = (Raise (bad_request "Invalid order ID"), orders))
  ∧ (ObjectId_is_valid OID order_id = true →
     Forall (λ x, has_id (ObjectId OID order_id) x = false) orders →
     get_order order_id orders = Raise (not_found "Order not found")
     ∧ update_order order_id order_update orders now
       = (Raise (not_found "Order not found"), orders)
     ∧ delete_order order_id orders = (Raise (not_found "Order not found"), orders)).
Proof.
  split.
  - intros Hinvalid. unfold get_order, update_order, delete_order.
    by rewrite Hinvalid.
  - intros Hvalid Hnone%find_nowhere.
    unfold get_order, update_order, delete_order. rewrite Hvalid. cbn [negb].
    by rewrite Hnone, (delete_one_none _ _ Hnone).
Qed.

(** *** Who may administer orders and messages *)

(** X12.  With the token a login returned, the order administration
    requests and the mark-all-read request raise the 401 exception of the
    admin resolver and leave their collection unchanged, whoever logged in;
    with a token of [create_admin_token] within its lifetime the same
    requests are the handlers themselves. *)
Theorem order_admin_needs_admin_token (Hsound : jose_decode_sound)
    (Hcomplete : jose_decode_complete)
    (order_id : string) (order_update : OrderUpdate)
    (orders messages : list (gmap string pyval)) (now0 now : datetime) :
  (∀ user_credentials db (t : Token (token L)),
      login_user user_credentials db now0 = Ok t →
      GET_order (access_token t) order_id orders now = Raise admin_access_401
      ∧ PUT_order (access_token t) order_id order_update orders now
        = (Raise admin_access_401, orders)
      ∧ DELETE_order (access_token t) order_id orders now
        = (Raise admin_access_401, orders)
      ∧ POST_mark_all_read (access_token t) messages now
        = (Raise admin_access_401, messages))
  ∧ (∀ email tok,
      create_admin_token email now0 = Ok tok →
      now ≤ now0 + timedelta_minutes (jwt_expiration_time settings) →
      GET_order tok order_id orders now = get_order order_id orders
      ∧ PUT_order tok order_id order_update orders now
        = update_order order_id order_update orders now
      ∧ DELETE_order tok order_id orders now = delete_order order_id orders
      ∧ POST_mark_all_read tok messages now
        = (Ok (mark_all_messages_as_read messages).1,
           (mark_all_messages_as_read messages).2)).
Proof.
  split.
  - intros user_credentials db t Ht.
    destruct (login_user_ok _ _ _ _ Ht) as (_ & _ & sub & _ & _ & _ & _ & Hissue & _).
    pose proof (login_token_refused sub now0 now _ Hsound Hissue) as Hno.
    unfold GET_order, PUT_order, DELETE_order, POST_mark_all_read.
    by rewrite Hno.
  - intros email tok Hissue Hnow.
    destruct (admin_token_decodes email now0 now tok Hsound Hcomplete Hissue Hnow)
      as (payload & Hdec & Hsub & Hflag).
    unfold GET_order, PUT_order, DELETE_order, POST_mark_all_read,
      get_current_admin, verify_admin_token, dict_get, dict_get_default.
    by rewrite Hdec, Hsub, Hflag.
Qed.

(** *** Deleting a product hides it *)

Lemma delete_fields_id now :
  (<["is_active" := PBool false]> (<["updated_at" := PDatetime now]> ∅)
     : gmap string pyval) !! "_id" = None.
Proof. by rewrite !lookup_insert_ne. Qed.

Lemma product_update_data_id product_update now :
  product_update_data product_update now !! "_id" = None.
Proof.
  unfold product_update_data.
  rewrite lookup_insert_ne; [|done]. rewrite !lookup_set_some.
  by repeat case_decide.
Qed.

(** X16.  For a valid identifier carried by exactly one document [d] of the
    collection, [delete_product] keeps the document in place and sets its
    [is_active] to false and its [updated_at]; afterwards [get_product]
    raises the 404 exception, a second [delete_product] succeeds again, and
    [update_product] still reaches the document: giving it [is_active]
    true makes [get_product] return it again. *)
Theorem delete_product_is_soft
    (product_id : string) (pre post : list (gmap string pyval))
    (d : gmap string pyval) (now now' now'' : datetime) :
  ObjectId_is_valid OID product_id = true →
  Forall (λ x, has_id (ObjectId OID product_id) x = false) pre →
  has_id (ObjectId OID product_id) d = true →
  Forall (λ x, has_id (ObjectId OID product_id) x = false) post →
  let gone :=
    apply_set (<["is_active" := PBool false]> (<["updated_at" := PDatetime now]> ∅)) d in
  let back :=
    apply_set (product_update_data
                 (mkProductUpdate None None None None None None (Some true)) now'')
      gone in
  delete_product product_id (pre ++ d :: post) now
  = (Ok "Product deleted successfully", (pre ++ gone :: post)%list)
  ∧ gone !! "is_active" = Some (PBool false)
  ∧ (∀ k, k ≠ "is_active" → k ≠ "updated_at" → gone !! k = d !! k)
  ∧ get_product product_id (pre ++ gone :: post) now'
    = Raise (not_found "Product not found")
  ∧ (delete_product product_id (pre ++ gone :: post) now').1
    = Ok "Product deleted successfully"
  ∧ update_product product_id
      (mkProductUpdate None None None None None None (Some true))
      (pre ++ gone :: post) now''
    = (ProductResponse_from_mongo (Some back) now'', (pre ++ back :: post)%list)
  ∧ get_product product_id (pre ++ back :: post) now'
    = ProductResponse_from_mongo (Some back) now'.
Proof.
  intros Hvalid Hpre Hd Hpost gone back.
  assert (Hgone : has_id (ObjectId OID product_id) gone = true).
  { subst gone. by rewrite has_id_apply_set; [|apply delete_fields_id]. }
  assert (Hback : has_id (ObjectId OID product_id) back = true).
  { subst back. by rewrite has_id_apply_set; [|apply product_update_data_id]. }
  assert (Hinactive : gone !! "is_active" = Some (PBool false)).
  { subst gone. rewrite lookup_apply_set. by rewrite lookup_insert_eq. }
  assert (Hactive : back !! "is_active" = Some (PBool true)).
  { subst back. rewrite lookup_apply_set. unfold product_update_data.
    rewrite lookup_insert_ne; [|done]. rewrite !lookup_set_some.
    by repeat case_decide. }
  assert (Hweaken : ∀ l : list (gmap string pyval),
             Forall (λ x, has_id (ObjectId OID product_id) x = false) l →
             Forall (λ x, active_with_id (ObjectId OID product_id) x = false) l).
  { intros l Hl. apply (Forall_impl _ _ _ Hl).
    intros x Hx. unfold active_with_id. by rewrite Hx. }
  split; [|split; [|split; [|split; [|split; [|split]]]]].
  - unfold delete_product. rewrite Hvalid. cbn [negb].
    by rewrite (update_one_middle _ _ _ _ _ Hpre Hd).
  - done.
  - intros k H1 H2. subst gone. rewrite lookup_apply_set.
    by rewrite !lookup_insert_ne.
  - unfold get_product. rewrite Hvalid. cbn [negb].
    rewrite find_nowhere; [done|].
    apply Forall_app. split; [by apply Hweaken|].
    constructor; [|by apply Hweaken].
    unfold active_with_id, field_is_bool. rewrite Hinactive. simpl.
    by rewrite andb_false_r.
  - unfold delete_product. rewrite Hvalid. cbn [negb].
    by rewrite (update_one_middle _ _ _ _ _ Hpre Hgone).
  - unfold update_product. rewrite Hvalid. cbn [negb].
    rewrite (find_middle _ _ _ _ Hpre Hgone).
    rewrite (update_one_middle _ _ _ _ _ Hpre Hgone). cbn [snd]. fold back.
    by rewrite (find_middle _ _ _ _ Hpre Hback).
  - unfold get_product. rewrite Hvalid. cbn [negb].
    rewrite (find_middle _ pre post back); [done|by apply Hweaken|].
    unfold active_with_id, field_is_bool. by rewrite Hback, Hactive.
Qed.

(** X19.  Changing or deleting a product asks for a user, not for the
    administrator: in a reachable store, with the token a login returned,
    within its lifetime and when the user document validates, the product
    requests are the handlers themselves, whoever logged in; with a token
    that [get_current_user] turns down they raise its exception and leave
    the products alone. *)
Theorem product_mutation_needs_login (Hsound : jose_decode_sound)
    (Hcomplete : jose_decode_complete)
    (product_id : string) (product_update : ProductUpdate)
    (products : list (gmap string pyval)) (db : database) (now0 now : datetime) :
  (∀ user_credentials (t : Token (token L)) user user_data,
      reachable db →
      login_user user_credentials db now0 = Ok t →
      now ≤ now0 + timedelta_minutes (jwt_expiration_time settings) →
      find_one_email db (Some (ul_email user_credentials)) = Some user →
      UserInDB_from_mongo user now = Ok user_data →
      DELETE_product (access_token t) db product_id products now
      = delete_product product_id products now
      ∧ PUT_product (access_token t) db product_id product_update products now
        = update_product product_id product_update products now)
  ∧ (∀ credentials e,
      get_current_user credentials db now = Raise e →
      DELETE_product credentials db product_id products now = (Raise e, products)
      ∧ PUT_product credentials db product_id product_update products now
        = (Raise e, products)).
Proof.
  split.
  - intros user_credentials t user ud Hreach Hlogin Hnow Hfind Hud.
    destruct (login_token_verifies _ _ now0 now _ Hsound Hcomplete Hreach Hlogin Hnow)
      as (user' & Hfind' & Hemail & Hverify).
    rewrite Hfind in Hfind'. injection Hfind' as <-.
    unfold DELETE_product, PUT_product, get_current_user.
    rewrite Hverify. step_bind. cbn [td_email].
    rewrite Hfind. unfold getitem. by rewrite Hemail, Hud.
  - intros credentials e He. unfold DELETE_product, PUT_product. by rewrite He.
Qed.

(** *** Contact messages *)

Lemma apply_set_empty (d : gmap string pyval) : apply_set ∅ d = d.
Proof. unfold apply_set. by rewrite fmap_empty, (left_id_L ∅ (∪)). Qed.

Lemma contact_update_data_id message_update :
  contact_update_data message_update !! "_id" = None.
Proof.
  unfold contact_update_data. rewrite !lookup_set_some.
  by repeat case_decide.
Qed.

(** X17.  For a valid identifier whose first document is [d],
    [update_contact_message] sets the fields that were given and nothing
    else, in place; with no field given it does not write at all, the
    collection is returned as it was and the response is built from [d]. *)
Theorem update_contact_message_effect
    (message_id : string) (message_update : ContactMessageUpdate)
    (pre post : list (gmap string pyval)) (d : gmap string pyval) :
  ObjectId_is_valid OID message_id = true →
  Forall (λ x, has_id (ObjectId OID message_id) x = false) pre →
  has_id (ObjectId OID message_id) d = true →
  let d' := apply_set (contact_update_data message_update) d in
  update_contact_message message_id message_update (pre ++ d :: post)
  = (ContactMessageResponse_from_mongo (Some d'), (pre ++ d' :: post)%list)
  ∧ (cu_is_read message_update = None → cu_admin_notes message_update = None →
     d' = d)
  ∧ d' !! "is_read"
    = match cu_is_read message_update with
      | Some b => Some (PBool b)
      | None => d !! "is_read"
      end
  ∧ d' !! "admin_notes"
    = match cu_admin_notes message_update with
      | Some n => Some (PStr n)
      | None => d !! "admin_notes"
      end
  ∧ (∀ k, k ≠ "is_read" → k ≠ "admin_notes" → d' !! k = d !! k).
Proof.
  intros Hvalid Hpre Hd d'.
  assert (Hd' : has_id (ObjectId OID message_id) d' = true).
  { subst d'. by rewrite has_id_apply_set; [|apply contact_update_data_id]. }
  split; [|split; [|split; [|split]]].
  - unfold update_contact_message. rewrite Hvalid. cbn [negb].
    rewrite (find_middle _ _ _ _ Hpre Hd). cbn zeta.
    case_bool_decide as Hempty.
    + subst d'. rewrite Hempty, apply_set_empty.
      by rewrite (find_middle _ _ _ _ Hpre Hd).
    + rewrite (update_one_middle _ _ _ _ _ Hpre Hd). cbn [snd]. fold d'.
      by rewrite (find_middle _ _ _ _ Hpre Hd').
  - intros H1 H2. subst d'. unfold contact_update_data. rewrite H1, H2.
    apply apply_set_empty.
  - subst d'. rewrite lookup_apply_set. unfold contact_update_data.
    rewrite !lookup_set_some. repeat case_decide; try done.
    by destruct (cu_is_read message_update).
  - subst d'. rewrite lookup_apply_set. unfold contact_update_data.
    rewrite !lookup_set_some. repeat case_decide; try done.
    by destruct (cu_admin_notes message_update).
  - intros k H1 H2. subst d'. rewrite lookup_apply_set.
    unfold contact_update_data. rewrite !lookup_set_some.
    by repeat case_decide.
Qed.

Lemma apply_set_read (d : gmap string pyval) :
  apply_set (<["is_read" := PBool true]> ∅) d = <["is_read" := PBool true]> d.
Proof.
  unfold apply_set. rewrite fmap_insert, fmap_empty. simpl.
  by rewrite <- insert_union_l, (left_id_L ∅ (∪)).
Qed.

Lemma read_not_unread (d : gmap string pyval) :
  field_is_bool "is_read" false (<["is_read" := PBool true]> d) = false.
Proof. unfold field_is_bool. by rewrite lookup_insert_eq. Qed.

(** X18.  [mark_all_messages_as_read] reports the number of messages the
    filter selected, keeps the number and order of the documents, sets
    [is_read] to true in each selected document and leaves the others as
    they are; afterwards the filter selects nothing, and a second call
    reports 0 and changes nothing. *)
Theorem mark_all_read_effect (messages : list (gmap string pyval)) :
  let r := mark_all_messages_as_read messages in
  modified_count r.1
  = length (filter (λ d, field_is_bool "is_read" false d = true) messages)
  ∧ length r.2 = length messages
  ∧ (∀ (i : nat) d, messages !! i = Some d →
       r.2 !! i = Some (if field_is_bool "is_read" false d
                        then <["is_read" := PBool true]> d else d))
  ∧ Forall (λ d, field_is_bool "is_read" false d = false) r.2
  ∧ mark_all_messages_as_read r.2 = ({| modified_count := 0 |}, r.2).
Proof.
  intros r. subst r. unfold mark_all_messages_as_read, update_many. cbn [fst snd].
  assert (Hdone :
    Forall (λ d, field_is_bool "is_read" false d = false)
      ((λ d, if field_is_bool "is_read" false d
             then apply_set (<["is_read" := PBool true]> ∅) d else d) <$> messages)).
  { apply Forall_fmap, Forall_forall. intros d _. simpl.
    destruct (field_is_bool "is_read" false d) eqn:Hd; [|done].
    rewrite apply_set_read. apply read_not_unread. }
  split; [done|]. split; [by rewrite length_fmap|]. split; [|split; [done|]].
  - intros i d Hi. rewrite list_lookup_fmap, Hi. simpl.
    destruct (field_is_bool "is_read" false d); [|done].
    by rewrite apply_set_read.
  - set (c' := _ <$> messages) in *. f_equal.
    + f_equal. induction Hdone as [|x l Hx _ IH]; [done|].
      rewrite filter_cons_False; [done|]. by rewrite Hx.
    + induction Hdone as [|x l Hx _ IH]; [done|].
      cbn [fmap list_fmap]. rewrite Hx. f_equal. exact IH.
Qed.

End Auth.

(** ** The reference instance meets the contracts *)

Lemma wire_time_lookup_ne k k' c : k ≠ k' → Ref.wire_time k' c !! k = c !! k.
Proof.
  intros Hne. unfold Ref.wire_time.
  destruct (c !! k') as [[]|]; try done.
  by rewrite lookup_insert_ne.
Qed.

Lemma wire_time_lookup_eq k c :
  Ref.wire_time k c !! k
  = match c !! k with
    | Some (PDatetime t) => Some (PInt (Ref.numeric_date t))
    | o => o
    end.
Proof.
  unfold Ref.wire_time.
  destruct (c !! k) as [[]|] eqn:Hk; try done.
  by rewrite lookup_insert_eq.
Qed.

Lemma wire_lookup_other k c : k ∉ time_claims → Ref.wire c !! k = c !! k.
Proof.
  intros Hk. unfold Ref.wire.
  rewrite !wire_time_lookup_ne; [done| | |];
    intros ->; apply Hk; unfold time_claims; repeat constructor.
Qed.

Lemma wire_lookup_exp c t :
  c !! "exp" = Some (PDatetime t) →
  Ref.wire c !! "exp" = Some (PInt (Ref.numeric_date t)).
Proof.
  intros Hc. unfold Ref.wire.
  do 2 (rewrite wire_time_lookup_ne; [|done]).
  by rewrite wire_time_lookup_eq, Hc.
Qed.

Lemma wire_lookup_none k c : c !! k = None → Ref.wire c !! k = None.
Proof.
  intros Hc. unfold Ref.wire.
  assert (Hstep : ∀ k' c', c' !! k = None → Ref.wire_time k' c' !! k = None).
  { intros k' c' Hc'. destruct (decide (k = k')) as [<-|Hne].
    - by rewrite wire_time_lookup_eq, Hc'.
    - by rewrite wire_time_lookup_ne. }
  by repeat apply Hstep.
Qed.

Lemma ref_encode_ok claims key alg tok :
  Ref.jwt_encode claims key alg = Ok tok →
  tok = Ref.Jws alg (Ref.wire claims) key.
Proof.
  unfold Ref.jwt_encode.
  destruct (negb (Ref.supported alg)); [discriminate|].
  destruct (bool_decide _); [|discriminate].
  by intros [= <-].
Qed.

Lemma ref_decode_sound : jose_decode_sound Ref.libs.
Proof.
  intros claims key alg tok key' algs now payload Henc Hdec k Hk.
  apply ref_encode_ok in Henc as ->. simpl in Hdec.
  destruct (_ && _) in Hdec; [|discriminate].
  injection Hdec as <-. by apply wire_lookup_other.
Qed.

Lemma ref_decode_complete : jose_decode_complete Ref.libs.
Proof.
  intros claims key alg tok sub e now Henc Hsub Hexp Hreg Hnow.
  apply ref_encode_ok in Henc as ->. simpl.
  assert (Hnone : ∀ k, k ∈ other_registered → Ref.wire claims !! k = None).
  { intros k Hk. by apply wire_lookup_none, Hreg. }
  assert (Hvalid : Ref.claims_valid (Ref.wire claims) now = true).
  { unfold Ref.claims_valid, Ref.int_or_absent, Ref.str_or_absent, Ref.absent.
    rewrite (wire_lookup_exp _ _ Hexp).
    rewrite (wire_lookup_other "sub"), Hsub.
    2:{ intros H%list_elem_of_In. simpl in H. intuition discriminate. }
    rewrite !Hnone; try (unfold other_registered; set_unfold; tauto).
    rewrite !andb_true_r. apply Z.leb_le.
    unfold Ref.numeric_date. by apply Z.div_le_mono. }
  rewrite String.eqb_refl, Hvalid, bool_decide_eq_true_2; [by eexists|].
  constructor.
Qed.


(** ** A zero lifetime *)

(** C6, at [expires_delta = timedelta(0)].  The test [if expires_delta:] is
    false for the zero duration, so the token gets the configured lifetime:
    with the default settings its [exp] is [now] plus 1440 minutes and not
    [now] plus the [ttl] asked for, and an hour after it was issued the token
    still verifies to its subject. *)
Theorem zero_ttl_takes_default_expiry :
  (∀ (data : gmap string pyval) (now : datetime),
      to_encode Settings_defaults data (Some 0) now !! "exp"
      = Some (PDatetime (now + 1440 * 60 * 1000000))
      ∧ to_encode Settings_defaults data (Some 0) now !! "exp"
        ≠ Some (PDatetime (now + 0)))
  ∧ (∃ tok,
        create_access_token Ref.libs Scenario.settings1
          (<["sub" := PStr "a@x.com"]> ∅) (Some 0) Scenario.t0 = Ok tok
        ∧ verify_token Ref.libs Scenario.settings1 tok Scenario.t1
          = Ok {| td_email := Some "a@x.com" |}).
Proof.
  split.
  - intros data now. rewrite to_encode_exp.
    change (token_expire Settings_defaults (Some 0) now)
      with (now + 1440 * 60 * 1000000).
    split; [done|]. intros [= H]. lia.
  - exists (Scenario.user_tok "a@x.com"). split; vm_compute; reflexivity.
Qed.

(** ** The theorems at concrete requests *)

Import Scenario.

Lemma token_paths_witness :
  jose_decode_sound Ref.libs
  ∧ get_current_admin Ref.libs settings1 (user_tok "a@x.com") t1
    = Raise admin_access_401
  ∧ fails_with
      (get_current_user Ref.libs settings1 env_admin (admin_tok "ghost@x.com") db2 t1)
      Unauthorized
  ∧ get_current_user Ref.libs settings1 env_admin (admin_tok "admin@x.com") db2 t1
    = Ok root_resolved.
Proof.
  split; [exact ref_decode_sound|].
  destruct (token_paths Ref.libs settings1 env_admin ref_decode_sound) as (Ha & _ & Hb).
  split; [|split].
  - apply (Ha (PStr "a@x.com") t0 t1). vm_compute. reflexivity.
  - refine (proj1 (Hb "ghost@x.com" t0 t1 _ db2 _) _); vm_compute; reflexivity.
  - refine (proj2 (Hb "admin@x.com" t0 t1 _ db2 _)
              (doc "65a1" root "$2b$y$letmein" 2000000) (PStr "admin@x.com")
              (set_is_admin root_resolved false) _ _ _ _).
    + vm_compute. reflexivity.
    + vm_compute. eexists. reflexivity.
    + vm_compute. reflexivity.
    + vm_compute. reflexivity.
    + vm_compute. reflexivity.
Defined.

(** C1 as stated fails: the admin-path token for [admin@x.com] is accepted by
    [get_current_user] once a user with that address is registered. *)
Lemma admin_token_resolves_as_user :
  create_admin_token Ref.libs settings1 "admin@x.com" t0 = Ok (admin_tok "admin@x.com")
  ∧ get_current_user Ref.libs settings1 env_admin (admin_tok "admin@x.com") db2 t1
    = Ok root_resolved.
Proof. split; vm_compute; reflexivity. Qed.

Lemma resolve_admin_fails_unauthorized_witness :
  match jwt_decode Ref.libs (user_tok "a@x.com") (jwt_secret_key settings1)
          [jwt_algorithm settings1] t1 with
  | None => True
  | Some payload => dict_get payload "sub" = PNone ∨ payload !! "is_admin" = None
  end
  ∧ get_current_admin Ref.libs settings1 (user_tok "a@x.com") t1 = Raise admin_access_401
  ∧ fails_with (get_current_admin Ref.libs settings1 (Ref.NotJws "garbage") t1) Unauthorized.
Proof.
  split; [vm_compute; right; reflexivity|]. split.
  - apply (resolve_admin_fails_unauthorized Ref.libs settings1 (user_tok "a@x.com") t1).
    vm_compute. right. reflexivity.
  - apply (resolve_admin_fails_unauthorized Ref.libs settings1 (Ref.NotJws "garbage") t1).
    vm_compute. exact I.
Defined.

(** C2 as stated fails: the login token of [a@x.com], valid and without an
    [is_admin] claim, is not turned down with the [Forbidden] kind. *)
Lemma user_token_not_forbidden :
  (∃ payload,
      jwt_decode Ref.libs (user_tok "a@x.com") (jwt_secret_key settings1)
        [jwt_algorithm settings1] t1 = Some payload
      ∧ payload !! "is_admin" = None)
  ∧ ¬ fails_with (get_current_admin Ref.libs settings1 (user_tok "a@x.com") t1) Forbidden.
Proof.
  split.
  - eexists. split; vm_compute; reflexivity.
  - intros (e & He & Hk). vm_compute in He. injection He as <-. discriminate Hk.
Qed.

Lemma dashboard_gate_witness :
  get_current_user Ref.libs settings1 env_admin (user_tok "a@x.com") db2 t1
    = Ok alice_resolved
  ∧ GET_admin_dashboard Ref.libs settings1 env_admin count_users
      (user_tok "a@x.com") db2 t1 = Raise admin_required
  ∧ getenv env_admin "ADMIN_EMAIL" = Some "admin@x.com"
  ∧ GET_admin_dashboard Ref.libs settings1 env_admin count_users
      (user_tok "admin@x.com") db2 t1 = Ok 2%nat
  ∧ GET_admin_verify Ref.libs settings1 env_admin (user_tok "a@x.com") db2 t1
    = Raise admin_required
  ∧ GET_admin_analytics_summary Ref.libs settings1 env_admin count_users
      (user_tok "a@x.com") db2 t1 = Raise admin_required
  ∧ GET_admin_verify Ref.libs settings1 env_admin (user_tok "admin@x.com") db2 t1
    = Ok {| av_message := "Admin access verified";
            av_admin_email := "admin@x.com";
            av_is_admin := Some true |}
  ∧ GET_admin_users_stats Ref.libs settings1 env_admin count_users
      (user_tok "admin@x.com") db2 t1 = Ok 2%nat.
Proof.
  assert (Hplain : get_current_user Ref.libs settings1 env_admin
                     (user_tok "a@x.com") db2 t1 = Ok alice_resolved)
    by (vm_compute; reflexivity).
  destruct (proj1 (dashboard_gate Ref.libs settings1 env_admin count_users
                     (user_tok "a@x.com") db2 t1) alice_resolved Hplain eq_refl)
    as (Hd & _ & Hv & _ & _ & _ & _ & _ & Ha & _).
  assert (Henv : getenv env_admin "ADMIN_EMAIL" = Some "admin@x.com")
    by reflexivity.
  destruct (proj2 (dashboard_gate Ref.libs settings1 env_admin count_users
                     (user_tok "admin@x.com") db2 t1)
              (<["exp" := PInt exp0]> (<["sub" := PStr "admin@x.com"]> ∅))
              "admin@x.com" (doc "65a1" root "$2b$y$letmein" 2000000)
              (set_is_admin root_resolved false)
              eq_refl eq_refl eq_refl eq_refl eq_refl Henv)
    as (Hd' & Hv' & _ & Hs' & _).
  split; [exact Hplain|]. split; [exact Hd|]. split; [exact Henv|].
  split; [exact Hd'|]. split; [exact Hv|]. split; [exact Ha|].
  split; [exact Hv' | exact Hs'].
Defined.

Lemma admin_status_not_stored_witness :
  reachable Ref.libs db2
  ∧ (∀ user, In user (users db2) → user !! "is_admin" = None)
  ∧ (∀ credentials now u,
       get_current_user Ref.libs settings1 env_admin credentials db2 now = Ok u →
       ∃ user e,
         In user (users db2)
         ∧ user !! "email" = Some (PStr e)
         ∧ u_is_admin u = Some (bool_decide (getenv env_admin "ADMIN_EMAIL" = Some e)))
  ∧ get_current_user Ref.libs settings1 env_admin (user_tok "a@x.com") db2 t1
    = Ok alice_resolved.
Proof.
  assert (Hreach : reachable Ref.libs db2).
  { exists [POST_register Ref.libs "65a0" ("x"%char : salt Ref.libs) alice 1000000;
            POST_register Ref.libs "65a1" ("y"%char : salt Ref.libs) root 2000000].
    vm_compute. reflexivity. }
  split; [exact Hreach|].
  destruct (admin_status_not_stored Ref.libs settings1 env_admin db2 Hreach)
    as (Hstored & _ & _ & Hcomputed & Hresolves).
  split; [exact Hstored|]. split; [exact Hcomputed|].
  refine (Hresolves (user_tok "a@x.com") t1
            (<["exp" := PInt exp0]> (<["sub" := PStr "a@x.com"]> ∅))
            "a@x.com" (doc "65a0" alice "$2b$x$pw123456" 1000000)
            alice_resolved _ _ _ _);
    vm_compute; reflexivity.
Defined.

Lemma resolve_user_unknown_subject_witness :
  find_one_email db2 (Some "ghost@x.com") = None
  ∧ get_current_user Ref.libs settings1 env_admin (user_tok "ghost@x.com") db2 t1
    = Raise user_not_found
  ∧ get_current_user Ref.libs settings1 env_admin (Ref.NotJws "garbage") db2 t1
    = Raise could_not_validate.
Proof.
  split; [vm_compute; reflexivity|].
  destruct (resolve_user_unknown_subject Ref.libs settings1 env_admin
              (user_tok "ghost@x.com") (Ref.NotJws "garbage") db2 t1
              (<["exp" := PInt exp0]> (<["sub" := PStr "ghost@x.com"]> ∅))
              "ghost@x.com")
    as (H1 & H2 & _); try (vm_compute; reflexivity).
  split; [exact H1 | exact H2].
Defined.

(** C5 as stated fails: what the caller gets for a valid token of an unknown
    subject is not what it gets for a token that does not decode. *)
Lemma unknown_subject_distinguished :
  is_Some (jwt_decode Ref.libs (user_tok "ghost@x.com") (jwt_secret_key settings1)
             [jwt_algorithm settings1] t1)
  ∧ find_one_email db2 (Some "ghost@x.com") = None
  ∧ jwt_decode Ref.libs (Ref.NotJws "garbage") (jwt_secret_key settings1)
      [jwt_algorithm settings1] t1 = None
  ∧ get_current_user Ref.libs settings1 env_admin (user_tok "ghost@x.com") db2 t1
    ≠ get_current_user Ref.libs settings1 env_admin (Ref.NotJws "garbage") db2 t1.
Proof.
  split; [vm_compute; eexists; reflexivity|].
  split; [vm_compute; reflexivity|].
  split; [vm_compute; reflexivity|].
  vm_compute. discriminate.
Qed.




Lemma no_admin_email_no_admin_witness :
  getenv env_unset "ADMIN_EMAIL" = None
  ∧ get_current_user Ref.libs settings1 env_unset (user_tok "admin@x.com") db2 t1
    = Ok (set_is_admin root_resolved false)
  ∧ GET_admin_dashboard Ref.libs settings1 env_unset count_users
      (user_tok "admin@x.com") db2 t1 = Raise admin_required
  ∧ GET_admin_verify Ref.libs settings1 env_unset (user_tok "admin@x.com") db2 t1
    = Raise admin_required
  ∧ GET_admin_products_stats Ref.libs settings1 env_unset count_users
      (user_tok "admin@x.com") db2 t1 = Raise admin_required
  ∧ GET_admin_users_stats Ref.libs settings1 env_unset count_users
      (user_tok "admin@x.com") db2 t1 = Raise admin_required
  ∧ GET_admin_analytics_summary Ref.libs settings1 env_unset count_users
      (user_tok "admin@x.com") db2 t1 = Raise admin_required.
Proof.
  assert (Henv : getenv env_unset "ADMIN_EMAIL" = None) by reflexivity.
  destruct (no_admin_email_no_admin Ref.libs settings1 env_unset count_users db2 t1 Henv)
    as [Hresolve Hgate].
  assert (Hu : get_current_user Ref.libs settings1 env_unset
                 (user_tok "admin@x.com") db2 t1
               = Ok (set_is_admin root_resolved false)).
  { refine (Hresolve (user_tok "admin@x.com")
              (<["exp" := PInt exp0]> (<["sub" := PStr "admin@x.com"]> ∅))
              "admin@x.com" (doc "65a1" root "$2b$y$letmein" 2000000)
              (set_is_admin root_resolved false) _ _ _ _);
      vm_compute; reflexivity. }
  destruct (Hgate _ _ Hu) as (_ & Hdash & Hverify & _ & _ & Hp & _ & Hs & _ & Ha & _).
  split; [exact Henv|]. split; [exact Hu|]. split; [exact Hdash|].
  split; [exact Hverify|]. split; [exact Hp|]. split; [exact Hs | exact Ha].
Defined.


(** The subject of a token need not be a string to be signed, but
    [jwt.decode] turns down a subject that is not one: the token
    [create_access_token] issues for the subject 5 with [is_admin] true is
    refused with status 401 an hour later, well before its expiry. *)
Lemma int_subject_refused :
  let data := <["sub" := PInt 5]> (<["is_admin" := PBool true]> ∅) in
  let tok := Ref.Jws "HS256" (<["exp" := PInt exp0]> data) "s3cret" in
  create_access_token Ref.libs settings1 data None t0 = Ok tok
  ∧ t1 ≤ token_expire settings1 None t0
  ∧ data !! "sub" = Some (PInt 5) ∧ PInt 5 ≠ PNone
  ∧ data !! "is_admin" = Some (PBool true) ∧ truthy (PBool true) = true
  ∧ get_current_admin Ref.libs settings1 tok t1 = Raise admin_access_401
  ∧ kind_of admin_access_401 = Unauthorized.
Proof.
  cbv zeta.
  split; [vm_compute; reflexivity|]. split; [vm_compute; discriminate|].
  split; [vm_compute; reflexivity|]. split; [discriminate|].
  split; [vm_compute; reflexivity|]. split; [reflexivity|].
  split; vm_compute; reflexivity.
Qed.

(** A token of the login path, read back an hour after it was issued. *)
Example issue_then_verify_alice :
  verify_token Ref.libs settings1 (user_tok "a@x.com") t1
  = Ok {| td_email := Some "a@x.com" |}.
Proof.
  apply (issue_then_verify Ref.libs settings1
           (<["sub" := PStr "a@x.com"]> ∅) "a@x.com" None t0 t1
           (user_tok "a@x.com") ref_decode_sound ref_decode_complete).
  - reflexivity.
  - intros k Hk. apply list_elem_of_In in Hk. simpl in Hk.
    by repeat (destruct Hk as [<-|Hk]; [reflexivity|]).
  - vm_compute. reflexivity.
  - vm_compute. discriminate.
Qed.

(** ** [config/database.py]: starting without a database *)

Lemma starts_with_spec needle hay :
  starts_with needle hay = true ↔ ∃ rest, hay = needle +:+ rest.
Proof.
  revert hay. induction needle as [|a needle IH]; intros hay; simpl.
  - split; [by exists hay | done].
  - destruct hay as [|b hay]; simpl.
    + split; [done | by intros [rest H]].
    + rewrite andb_true_iff, Ascii.eqb_eq, IH. split.
      * intros [-> [rest ->]]. by exists rest.
      * intros [rest [= -> ->]]. split; [done | by exists rest].
Qed.

Lemma str_in_spec needle hay :
  str_in needle hay = true ↔ ∃ before rest, hay = before +:+ needle +:+ rest.
Proof.
  induction hay as [|b hay IH].
  - simpl. rewrite orb_false_r, starts_with_spec. split.
    + intros [rest H]. by exists "", rest.
    + intros (before & rest & H). destruct before; [by exists rest|discriminate].
  - cbn [str_in]. rewrite orb_true_iff, starts_with_spec, IH. split.
    + intros [[rest H] | (before & rest & ->)].
      * by exists "", rest.
      * by exists (String b before), rest.
    + intros (before & rest & H). destruct before as [|b' before].
      * left. by exists rest.
      * right. injection H as -> ->. by exists before, rest.
Qed.

Lemma connect_usable {M : Motor} environ url (mongodb : MongoDB M) :
  usable_url environ url →
  connect_to_mongo environ mongodb
  = match AsyncIOMotorClient M url with
    | Raise _ => mongodb
    | Ok c =>
        match ping M c with
        | Raise _ => {| client := Some c; mongo_database := mongo_database mongodb |}
        | Ok _ => {| client := Some c; mongo_database := Some (sunainscent M c) |}
        end
    end.
Proof.
  intros (Henv & Hne & Huser & Hpass). unfold connect_to_mongo. rewrite Henv.
  destruct (String.eqb_spec url "") as [->|_]; [done|].
  destruct (str_in "<db_username>" url) eqn:H1.
  { apply str_in_spec in H1 as (a & b & ->). by destruct (Huser a b). }
  destruct (str_in "<db_password>" url) eqn:H2.
  { apply str_in_spec in H2 as (a & b & ->). by destruct (Hpass a b). }
  reflexivity.
Qed.

Lemma connect_unusable {M : Motor} environ (mongodb : MongoDB M) :
  (∀ url, ¬ usable_url environ url) → connect_to_mongo environ mongodb = mongodb.
Proof.
  intros Hno. unfold connect_to_mongo.
  destruct (environ !! "MONGODB_URL") as [url|] eqn:Henv; [|done].
  destruct (String.eqb_spec url "") as [->|Hne]; [done|].
  destruct (str_in "<db_username>" url) eqn:H1; [done|].
  destruct (str_in "<db_password>" url) eqn:H2; [done|].
  destruct (Hno url). split; [done|]. split; [done|]. split.
  - intros a b ->. assert (str_in "<db_username>" (a +:+ "<db_username>" +:+ b) = true)
      by (apply str_in_spec; eauto). congruence.
  - intros a b ->. assert (str_in "<db_password>" (a +:+ "<db_password>" +:+ b) = true)
      by (apply str_in_spec; eauto). congruence.
Qed.

(** X10.  When [MONGODB_URL] is not set, is empty, or still contains one of
    the placeholders [<db_username>] and [<db_password>], [connect_to_mongo]
    changes nothing: started that way the application has no client to
    close and [get_database] raises the 503 exception. *)
Theorem connect_without_url {M : Motor} (environ : gmap string string)
    (mongodb : MongoDB M) :
  environ !! "MONGODB_URL" = None
  ∨ environ !! "MONGODB_URL" = Some ""
  ∨ (∃ before rest,
       environ !! "MONGODB_URL" = Some (before +:+ "<db_username>" +:+ rest)
       ∨ environ !! "MONGODB_URL" = Some (before +:+ "<db_password>" +:+ rest)) →
  connect_to_mongo environ mongodb = mongodb
  ∧ get_database (connect_to_mongo environ (mongodb_initial M))
    = Raise database_unavailable
  ∧ close_mongo_connection (connect_to_mongo environ (mongodb_initial M)) = None
  ∧ status_code_of database_unavailable = Some HTTP_503_SERVICE_UNAVAILABLE.
Proof.
  intros H.
  assert (Hno : ∀ url, ¬ usable_url environ url).
  { intros url (Henv & Hne & Huser & Hpass).
    destruct H as [H | [H | (a & b & [H | H])]]; rewrite Henv in H.
    - discriminate.
    - by injection H.
    - injection H as ->. by destruct (Huser a b).
    - injection H as ->. by destruct (Hpass a b). }
  rewrite !connect_unusable by done. by repeat split.
Qed.

(** X11.  Started from the initial state, [get_database] returns a handle
    exactly when [MONGODB_URL] is usable, the client could be built and the
    server answered the ping, and the handle is then the [sunainscent]
    database of that client; in every other case it raises the 503
    exception, and after a ping that failed the client is nevertheless kept
    and will be closed at shutdown. *)
Theorem database_available_iff {M : Motor} (environ : gmap string string) :
  let started := connect_to_mongo environ (mongodb_initial M) in
  (∀ h, get_database started = Ok h
        ↔ ∃ url c, usable_url environ url
                   ∧ AsyncIOMotorClient M url = Ok c
                   ∧ ping M c = Ok tt
                   ∧ h = sunainscent M c)
  ∧ (∀ e, get_database started = Raise e → e = database_unavailable)
  ∧ (∀ url c e, usable_url environ url →
                AsyncIOMotorClient M url = Ok c →
                ping M c = Raise e →
                get_database started = Raise database_unavailable
                ∧ close_mongo_connection started = Some c).
Proof.
  intros started. subst started. split; [|split].
  - intros h. split.
    + intros Hget.
      destruct (environ !! "MONGODB_URL") as [url|] eqn:Henv.
      2:{ rewrite connect_unusable in Hget; [discriminate|].
          intros url (H & _). congruence. }
      destruct (String.eqb_spec url "") as [->|Hne].
      { unfold connect_to_mongo in Hget. by rewrite Henv in Hget. }
      destruct (str_in "<db_username>" url) eqn:H1.
      { unfold connect_to_mongo in Hget. rewrite Henv, H1 in Hget.
        by destruct (String.eqb url ""). }
      destruct (str_in "<db_password>" url) eqn:H2.
      { unfold connect_to_mongo in Hget. rewrite Henv, H1, H2 in Hget.
        by destruct (String.eqb url ""). }
      assert (Hu : usable_url environ url).
      { split; [done|]. split; [done|]. split.
        - intros a b ->.
          assert (str_in "<db_username>" (a +:+ "<db_username>" +:+ b) = true)
            by (apply str_in_spec; eauto). congruence.
        - intros a b ->.
          assert (str_in "<db_password>" (a +:+ "<db_password>" +:+ b) = true)
            by (apply str_in_spec; eauto). congruence. }
      rewrite (connect_usable _ _ _ Hu) in Hget.
      destruct (AsyncIOMotorClient M url) as [c|] eqn:Hc; [|discriminate].
      destruct (ping M c) as [[]|] eqn:Hp; [|discriminate].
      injection Hget as <-. by exists url, c.
    + intros (url & c & Hu & Hc & Hp & ->).
      by rewrite (connect_usable _ _ _ Hu), Hc, Hp.
  - intros e. unfold get_database.
    destruct (mongo_database _); [discriminate|]. by intros [= <-].
  - intros url c e Hu Hc Hp.
    by rewrite (connect_usable _ _ _ Hu), Hc, Hp.
Qed.

(** ** The further theorems at concrete requests *)

Import ShopScenario.

Lemma db2_reachable : reachable Ref.libs db2.
Proof.
  exists [POST_register Ref.libs "65a0" ("x"%char : salt Ref.libs) alice 1000000;
          POST_register Ref.libs "65a1" ("y"%char : salt Ref.libs) root 2000000].
  vm_compute. reflexivity.
Defined.

Lemma admin_token_round_trip_witness :
  create_admin_token Ref.libs settings1 "admin@x.com" t0 = Ok (admin_tok "admin@x.com")
  ∧ t1 ≤ t0 + timedelta_minutes (jwt_expiration_time settings1)
  ∧ get_current_admin Ref.libs settings1 (admin_tok "admin@x.com") t1
    = Ok {| ad_email := PStr "admin@x.com"; ad_is_admin := PBool true |}.
Proof.
  assert (Hissue : create_admin_token Ref.libs settings1 "admin@x.com" t0
                   = Ok (admin_tok "admin@x.com")) by (vm_compute; reflexivity).
  assert (Hnow : t1 ≤ t0 + timedelta_minutes (jwt_expiration_time settings1))
    by (vm_compute; discriminate).
  split; [exact Hissue|]. split; [exact Hnow|].
  exact (admin_token_round_trip Ref.libs settings1 ref_decode_sound
           ref_decode_complete "admin@x.com" t0 t1 _ Hissue Hnow).
Defined.

Lemma login_token_resolves_witness :
  reachable Ref.libs db2
  ∧ login_user Ref.libs settings1
      {| ul_email := "a@x.com"; ul_password := "pw123456" |} db2 t0
    = Ok {| access_token := user_tok "a@x.com"; token_type := "bearer" |}
  ∧ t1 ≤ t0 + timedelta_minutes (jwt_expiration_time settings1)
  ∧ get_current_user Ref.libs settings1 env_admin (user_tok "a@x.com") db2 t1
    = Ok alice_resolved.
Proof.
  assert (Hlogin : login_user Ref.libs settings1
                     {| ul_email := "a@x.com"; ul_password := "pw123456" |} db2 t0
                   = Ok {| access_token := user_tok "a@x.com"; token_type := "bearer" |})
    by (vm_compute; reflexivity).
  assert (Hnow : t1 ≤ t0 + timedelta_minutes (jwt_expiration_time settings1))
    by (vm_compute; discriminate).
  split; [exact db2_reachable|]. split; [exact Hlogin|]. split; [exact Hnow|].
  destruct (login_token_resolves Ref.libs settings1 env_admin ref_decode_sound
              ref_decode_complete _ db2 t0 t1 _ db2_reachable Hlogin Hnow)
    as (user & Hfind & Hget).
  assert (Huser : user = doc "65a0" alice "$2b$x$pw123456" 1000000).
  { vm_compute in Hfind. injection Hfind as <-. vm_compute. reflexivity. }
  rewrite Huser in Hget. exact Hget.
Defined.

Lemma verify_admin_credentials_iff_witness :
  getenv env_admin "ADMIN_EMAIL" = Some "admin@x.com"
  ∧ getenv env_admin "ADMIN_PASSWORD" = Some "letmein"
  ∧ verify_admin_credentials env_admin "admin@x.com" "letmein" = true
  ∧ getenv env_unset "ADMIN_PASSWORD" = None
  ∧ verify_admin_credentials env_unset "admin@x.com" "letmein" = false.
Proof.
  assert (H1 : getenv env_admin "ADMIN_EMAIL" = Some "admin@x.com") by reflexivity.
  assert (H2 : getenv env_admin "ADMIN_PASSWORD" = Some "letmein") by reflexivity.
  assert (H3 : getenv env_unset "ADMIN_PASSWORD" = None) by reflexivity.
  split; [exact H1|]. split; [exact H2|]. split; [|split; [exact H3|]].
  - apply (proj1 (verify_admin_credentials_iff env_admin "admin@x.com" "letmein")).
    split; [exact H1 | exact H2].
  - apply (proj2 (verify_admin_credentials_iff env_unset "admin@x.com" "letmein")).
    right. exact H3.
Defined.

Lemma register_user_once_witness :
  register_user Ref.libs "65a0" ("x"%char : salt Ref.libs) alice empty_db 1000000
    = (Ok alice_response, db1)
  ∧ uc_email alice_again = uc_email alice
  ∧ register_user Ref.libs "65a9" ("z"%char : salt Ref.libs) alice_again db1 t0
    = (Raise (EHTTP {| status_code := HTTP_400_BAD_REQUEST;
                       detail := "Email already registered";
                       headers := [] |}), db1).
Proof.
  assert (Hreg : register_user Ref.libs "65a0" ("x"%char : salt Ref.libs) alice
                   empty_db 1000000 = (Ok alice_response, db1))
    by (vm_compute; reflexivity).
  split; [exact Hreg|]. split; [reflexivity|].
  exact (register_user_once Ref.libs "65a0" "65a9" _ ("z"%char : salt Ref.libs)
           alice alice_again empty_db db1 1000000 t0 alice_response Hreg eq_refl).
Defined.



Lemma login_user_sound_and_silent_witness :
  find_one_email db2 (Some "ghost@x.com") = None
  ∧ login_user Ref.libs settings1
      {| ul_email := "ghost@x.com"; ul_password := "pw123456" |} db2 t0
    = Raise incorrect_credentials
  ∧ verify_password Ref.libs "wrong" (PStr "$2b$x$pw123456") = Ok false
  ∧ login_user Ref.libs settings1
      {| ul_email := "a@x.com"; ul_password := "wrong" |} db2 t0
    = Raise incorrect_credentials.
Proof.
  assert (Hnone : find_one_email db2 (Some "ghost@x.com") = None)
    by (vm_compute; reflexivity).
  assert (Hwrong : verify_password Ref.libs "wrong" (PStr "$2b$x$pw123456") = Ok false)
    by (vm_compute; reflexivity).
  split; [exact Hnone|]. split; [|split; [exact Hwrong|]].
  - exact (proj1 (proj2 (login_user_sound_and_silent Ref.libs settings1
                           {| ul_email := "ghost@x.com"; ul_password := "pw123456" |}
                           db2 t0)) Hnone).
  - refine (proj1 (proj2 (proj2 (login_user_sound_and_silent Ref.libs settings1
                                   {| ul_email := "a@x.com"; ul_password := "wrong" |}
                                   db2 t0)))
              (doc "65a0" alice "$2b$x$pw123456" 1000000) (PStr "$2b$x$pw123456")
              _ _ Hwrong);
      vm_compute; reflexivity.
Defined.

(** Registered 1 microsecond past the second: the stored and the returned
    [created_at] are the second. *)
Lemma register_user_appends_witness :
  find_one_email empty_db (Some (uc_email alice)) = None
  ∧ get_password_hash Ref.libs ("x"%char : salt Ref.libs) (uc_password alice)
    = Ok "$2b$x$pw123456"
  ∧ existsb (has_id "65a0") (users empty_db) = false
  ∧ register_user Ref.libs "65a0" ("x"%char : salt Ref.libs) alice empty_db 1000001
    = (Ok alice_response, db1)
  ∧ stored_user "65a0" alice "$2b$x$pw123456" 1000001 !! "created_at"
    = Some (PDatetime 1000000)
  ∧ find_one_id db1 "65a0" = Some (doc "65a0" alice "$2b$x$pw123456" 1000000).
Proof.
  assert (H1 : find_one_email empty_db (Some (uc_email alice)) = None) by reflexivity.
  assert (H2 : get_password_hash Ref.libs ("x"%char : salt Ref.libs) (uc_password alice)
               = Ok "$2b$x$pw123456") by reflexivity.
  assert (H3 : existsb (has_id "65a0") (users empty_db) = false) by reflexivity.
  split; [exact H1|]. split; [exact H2|]. split; [exact H3|].
  destruct (register_user_appends Ref.libs "65a0" _ alice empty_db 1000001 _ H1 H2 H3)
    as (Hreg & _ & _ & Hcreated & Hfind).
  split; [|split].
  - refine (eq_trans Hreg _). vm_compute. reflexivity.
  - exact Hcreated.
  - refine (eq_trans _ (eq_trans Hfind _)); vm_compute; reflexivity.
Defined.

Lemma admin_routes_gate_witness :
  get_current_user Ref.libs settings1 env_admin (user_tok "a@x.com") db2 t1
    = Ok alice_resolved
  ∧ GET_admin_users_stats Ref.libs settings1 env_admin count_users
      (user_tok "a@x.com") db2 t1 = Raise admin_required
  ∧ GET_admin_analytics_summary Ref.libs settings1 env_admin count_users
      (user_tok "a@x.com") db2 t1 = Raise admin_required
  ∧ GET_admin_products_stats Ref.libs settings1 env_admin count_users
      (user_tok "admin@x.com") db2 t1 = Ok 2%nat
  ∧ ∃ payload e user,
      jwt_decode Ref.libs (user_tok "admin@x.com") (jwt_secret_key settings1)
        [jwt_algorithm settings1] t1 = Some payload
      ∧ dict_get payload "sub" = PStr e
      ∧ find_one_email db2 (Some e) = Some user
      ∧ user !! "email" = Some (PStr e)
      ∧ getenv env_admin "ADMIN_EMAIL" = Some e.
Proof.
  assert (Hu : get_current_user Ref.libs settings1 env_admin (user_tok "a@x.com") db2 t1
               = Ok alice_resolved) by (vm_compute; reflexivity).
  assert (Hok : GET_admin_products_stats Ref.libs settings1 env_admin count_users
                  (user_tok "admin@x.com") db2 t1 = Ok 2%nat)
    by (vm_compute; reflexivity).
  split; [exact Hu|].
  destruct (proj1 (admin_routes_gate Ref.libs settings1 env_admin count_users
                     (user_tok "a@x.com") db2 t1) alice_resolved Hu eq_refl)
    as (_ & _ & _ & Husers & Hsummary).
  split; [exact Husers|]. split; [exact Hsummary|]. split; [exact Hok|].
  refine (proj2 (admin_routes_gate Ref.libs settings1 env_admin count_users
                   (user_tok "admin@x.com") db2 t1) 2%nat
            {| av_message := ""; av_admin_email := ""; av_is_admin := None |} _).
  right. right. left. exact Hok.
Defined.

Lemma usable_by_test environ url :
  environ !! "MONGODB_URL" = Some url →
  url ≠ "" →
  str_in "<db_username>" url = false →
  str_in "<db_password>" url = false →
  usable_url environ url.
Proof.
  intros Henv Hne H1 H2. split; [done|]. split; [done|]. split.
  - intros a b ->.
    assert (str_in "<db_username>" (a +:+ "<db_username>" +:+ b) = true)
      by (apply str_in_spec; eauto). congruence.
  - intros a b ->.
    assert (str_in "<db_password>" (a +:+ "<db_password>" +:+ b) = true)
      by (apply str_in_spec; eauto). congruence.
Qed.

Lemma connect_without_url_witness :
  env_placeholder !! "MONGODB_URL"
    = Some ("mongodb+srv://" +:+ "<db_username>" +:+ ":<db_password>@cluster0.example.net")
  ∧ get_database (connect_to_mongo env_placeholder (mongodb_initial RefMotor.motor))
    = Raise database_unavailable
  ∧ get_database (connect_to_mongo env_unset (mongodb_initial RefMotor.motor))
    = Raise database_unavailable.
Proof.
  assert (H : env_placeholder !! "MONGODB_URL"
              = Some ("mongodb+srv://" +:+ "<db_username>"
                        +:+ ":<db_password>@cluster0.example.net"))
    by (vm_compute; reflexivity).
  split; [exact H|]. split.
  - refine (proj1 (proj2 (connect_without_url env_placeholder
                            (mongodb_initial RefMotor.motor) _))).
    right. right. exists "mongodb+srv://", ":<db_password>@cluster0.example.net".
    left. exact H.
  - refine (proj1 (proj2 (connect_without_url env_unset
                            (mongodb_initial RefMotor.motor) _))).
    left. reflexivity.
Defined.

Lemma database_available_iff_witness :
  usable_url env_url "mongodb+srv://app:pw@cluster0.example.net"
  ∧ get_database (connect_to_mongo env_url (mongodb_initial RefMotor.motor))
    = Ok "mongodb+srv://app:pw@cluster0.example.net/sunainscent"
  ∧ usable_url env_down "mongodb://down.example.net"
  ∧ get_database (connect_to_mongo env_down (mongodb_initial RefMotor.motor))
    = Raise database_unavailable
  ∧ close_mongo_connection (connect_to_mongo env_down (mongodb_initial RefMotor.motor))
    = Some "mongodb://down.example.net".
Proof.
  assert (Hup : usable_url env_url "mongodb+srv://app:pw@cluster0.example.net")
    by (apply usable_by_test; [reflexivity | discriminate | reflexivity | reflexivity]).
  assert (Hdown : usable_url env_down "mongodb://down.example.net")
    by (apply usable_by_test; [reflexivity | discriminate | reflexivity | reflexivity]).
  split; [exact Hup|]. split; [|split; [exact Hdown|]].
  - apply (proj1 (@database_available_iff RefMotor.motor env_url)).
    exists "mongodb+srv://app:pw@cluster0.example.net",
           "mongodb+srv://app:pw@cluster0.example.net".
    split; [exact Hup|]. split; [reflexivity|]. split; reflexivity.
  - exact (proj2 (proj2 (@database_available_iff RefMotor.motor env_down))
             "mongodb://down.example.net" "mongodb://down.example.net"
             (ELib "ServerSelectionTimeoutError") Hdown eq_refl eq_refl).
Defined.

(** The second order, shipped, marked delivered by the administrator. *)
Lemma update_order_effect_witness :
  ObjectId_is_valid RefShop.bson "64F8B123456789ABCDEF0456" = true
  ∧ has_id (ObjectId RefShop.bson "64F8B123456789ABCDEF0456")
      (order id_a "SUN-20231114-0A1B2C3D" PENDING) = false
  ∧ has_id (ObjectId RefShop.bson "64F8B123456789ABCDEF0456")
      (order id_b "SUN-20231114-4E5F6071" SHIPPED) = true
  ∧ (update_order Ref.libs RefShop.bson RefShop.models "64F8B123456789ABCDEF0456"
       {| ou_status := Some DELIVERED; ou_admin_notes := None |} orders2
       1700000123456789).2
    = [ order id_a "SUN-20231114-0A1B2C3D" PENDING;
        <["updated_at" := PDatetime 1700000123456000]>
          (order id_b "SUN-20231114-4E5F6071" DELIVERED) ].
Proof.
  assert (H1 : ObjectId_is_valid RefShop.bson "64F8B123456789ABCDEF0456" = true)
    by reflexivity.
  assert (H2 : has_id (ObjectId RefShop.bson "64F8B123456789ABCDEF0456")
                 (order id_a "SUN-20231114-0A1B2C3D" PENDING) = false)
    by (vm_compute; reflexivity).
  assert (H3 : has_id (ObjectId RefShop.bson "64F8B123456789ABCDEF0456")
                 (order id_b "SUN-20231114-4E5F6071" SHIPPED) = true)
    by (vm_compute; reflexivity).
  split; [exact H1|]. split; [exact H2|]. split; [exact H3|].
  pose proof (proj1 (update_order_effect Ref.libs RefShop.bson RefShop.models
                       "64F8B123456789ABCDEF0456"
                       {| ou_status := Some DELIVERED; ou_admin_notes := None |}
                       [order id_a "SUN-20231114-0A1B2C3D" PENDING] []
                       (order id_b "SUN-20231114-4E5F6071" SHIPPED)
                       1700000123456789 H1 ltac:(repeat constructor; exact H2) H3))
    as Heffect.
  change ([order id_a "SUN-20231114-0A1B2C3D" PENDING]
            ++ [order id_b "SUN-20231114-4E5F6071" SHIPPED])%list
    with orders2 in Heffect.
  rewrite Heffect. vm_compute. reflexivity.
Defined.

Lemma order_id_errors_witness :
  ObjectId_is_valid RefShop.bson "not-an-id" = false
  ∧ update_order Ref.libs RefShop.bson RefShop.models "not-an-id"
      {| ou_status := Some CANCELLED; ou_admin_notes := None |} orders2 t1
    = (Raise (bad_request "Invalid order ID"), orders2)
  ∧ ObjectId_is_valid RefShop.bson id_c = true
  ∧ delete_order RefShop.bson id_c orders2
    = (Raise (not_found "Order not found"), orders2).
Proof.
  assert (H1 : ObjectId_is_valid RefShop.bson "not-an-id" = false) by reflexivity.
  assert (H2 : ObjectId_is_valid RefShop.bson id_c = true) by reflexivity.
  split; [exact H1|]. split; [|split; [exact H2|]].
  - exact (proj1 (proj2 (proj1 (order_id_errors Ref.libs RefShop.bson RefShop.models
                                  "not-an-id"
                                  {| ou_status := Some CANCELLED; ou_admin_notes := None |}
                                  orders2 t1) H1))).
  - refine (proj2 (proj2 (proj2 (order_id_errors Ref.libs RefShop.bson RefShop.models
                                   id_c {| ou_status := None; ou_admin_notes := None |}
                                   orders2 t1) H2 _))).
    repeat constructor.
Defined.

Lemma delete_order_effect_witness :
  ObjectId_is_valid RefShop.bson id_a = true
  ∧ has_id (ObjectId RefShop.bson id_a) (order id_a "SUN-20231114-0A1B2C3D" PENDING)
    = true
  ∧ delete_order RefShop.bson id_a orders2
    = (Ok "Order deleted successfully", [order id_b "SUN-20231114-4E5F6071" SHIPPED])
  ∧ get_order Ref.libs RefShop.bson RefShop.models id_a
      [order id_b "SUN-20231114-4E5F6071" SHIPPED]
    = Raise (not_found "Order not found").
Proof.
  assert (H1 : ObjectId_is_valid RefShop.bson id_a = true) by reflexivity.
  assert (H2 : has_id (ObjectId RefShop.bson id_a)
                 (order id_a "SUN-20231114-0A1B2C3D" PENDING) = true)
    by (vm_compute; reflexivity).
  split; [exact H1|]. split; [exact H2|].
  destruct (delete_order_effect Ref.libs RefShop.bson RefShop.models id_a
              [] [order id_b "SUN-20231114-4E5F6071" SHIPPED]
              (order id_a "SUN-20231114-0A1B2C3D" PENDING)
              {| ou_status := None; ou_admin_notes := None |} t1
              H1 ltac:(constructor) H2)
    as [Hdel Hafter].
  split; [exact Hdel|].
  refine (proj1 (Hafter _)). repeat constructor.
Defined.

Lemma order_admin_needs_admin_token_witness :
  jose_decode_sound Ref.libs
  ∧ jose_decode_complete Ref.libs
  ∧ login_user Ref.libs settings1
      {| ul_email := "admin@x.com"; ul_password := "letmein" |} db2 t0
    = Ok {| access_token := user_tok "admin@x.com"; token_type := "bearer" |}
  ∧ DELETE_order Ref.libs settings1 RefShop.bson (user_tok "admin@x.com") id_a orders2 t1
    = (Raise admin_access_401, orders2)
  ∧ create_admin_token Ref.libs settings1 "admin@x.com" t0
    = Ok (admin_tok "admin@x.com")
  ∧ DELETE_order Ref.libs settings1 RefShop.bson (admin_tok "admin@x.com") id_a orders2 t1
    = (Ok "Order deleted successfully", [order id_b "SUN-20231114-4E5F6071" SHIPPED]).
Proof.
  assert (Hlogin : login_user Ref.libs settings1
                     {| ul_email := "admin@x.com"; ul_password := "letmein" |} db2 t0
                   = Ok {| access_token := user_tok "admin@x.com";
                           token_type := "bearer" |})
    by (vm_compute; reflexivity).
  assert (Hissue : create_admin_token Ref.libs settings1 "admin@x.com" t0
                   = Ok (admin_tok "admin@x.com")) by (vm_compute; reflexivity).
  assert (Hnow : t1 ≤ t0 + timedelta_minutes (jwt_expiration_time settings1))
    by (vm_compute; discriminate).
  split; [exact ref_decode_sound|]. split; [exact ref_decode_complete|].
  split; [exact Hlogin|].
  destruct (order_admin_needs_admin_token Ref.libs settings1 RefShop.bson RefShop.models
              ref_decode_sound ref_decode_complete id_a
              {| ou_status := None; ou_admin_notes := None |} orders2 messages3 t0 t1)
    as [Hrefused Hadmin].
  split; [|split; [exact Hissue|]].
  - exact (proj1 (proj2 (proj2 (Hrefused _ db2 _ Hlogin)))).
  - refine (eq_trans (proj1 (proj2 (proj2 (Hadmin "admin@x.com" _ Hissue Hnow)))) _).
    vm_compute. reflexivity.
Defined.

Lemma delete_product_is_soft_witness :
  ObjectId_is_valid RefShop.bson id_b = true
  ∧ has_id (ObjectId RefShop.bson id_b) (product id_a "Oud" true) = false
  ∧ has_id (ObjectId RefShop.bson id_b) (product id_b "Rose" true) = true
  ∧ delete_product RefShop.bson id_b products2 1700000123456789
    = (Ok "Product deleted successfully",
       [ product id_a "Oud" true;
         <["updated_at" := PDatetime 1700000123456000]> (product id_b "Rose" false) ])
  ∧ get_product Ref.libs RefShop.bson RefShop.models id_b
      [ product id_a "Oud" true;
        <["updated_at" := PDatetime 1700000123456000]> (product id_b "Rose" false) ] t1
    = Raise (not_found "Product not found").
Proof.
  assert (H1 : ObjectId_is_valid RefShop.bson id_b = true) by reflexivity.
  assert (H2 : has_id (ObjectId RefShop.bson id_b) (product id_a "Oud" true) = false)
    by (vm_compute; reflexivity).
  assert (H3 : has_id (ObjectId RefShop.bson id_b) (product id_b "Rose" true) = true)
    by (vm_compute; reflexivity).
  split; [exact H1|]. split; [exact H2|]. split; [exact H3|].
  destruct (delete_product_is_soft Ref.libs RefShop.bson RefShop.models id_b
              [product id_a "Oud" true] [] (product id_b "Rose" true)
              1700000123456789 t1 t1 H1 ltac:(repeat constructor; exact H2) H3
              ltac:(constructor))
    as (Hdel & _ & _ & Hget & _).
  split.
  - refine (eq_trans Hdel _). vm_compute. reflexivity.
  - refine (eq_trans _ Hget). vm_compute. reflexivity.
Defined.

Lemma update_contact_message_effect_witness :
  ObjectId_is_valid RefShop.bson id_a = true
  ∧ has_id (ObjectId RefShop.bson id_a) (message id_a "Product inquiry" false) = true
  ∧ (update_contact_message Ref.libs RefShop.bson RefShop.models id_a
       {| cu_is_read := None; cu_admin_notes := None |} messages3).2
    = messages3
  ∧ (update_contact_message Ref.libs RefShop.bson RefShop.models id_a
       {| cu_is_read := Some true; cu_admin_notes := None |} messages3).2
    = [ message id_a "Product inquiry" true;
        message id_b "Late delivery" true;
        message id_c "Wholesale" false ].
Proof.
  assert (H1 : ObjectId_is_valid RefShop.bson id_a = true) by reflexivity.
  assert (H2 : has_id (ObjectId RefShop.bson id_a)
                 (message id_a "Product inquiry" false) = true)
    by (vm_compute; reflexivity).
  split; [exact H1|]. split; [exact H2|]. split.
  - destruct (update_contact_message_effect Ref.libs RefShop.bson RefShop.models id_a
                {| cu_is_read := None; cu_admin_notes := None |}
                [] [message id_b "Late delivery" true; message id_c "Wholesale" false]
                (message id_a "Product inquiry" false) H1 ltac:(constructor) H2)
      as (Hupd & Hsame & _).
    refine (eq_trans (f_equal snd Hupd) _). cbn [snd].
    rewrite (Hsame eq_refl eq_refl). reflexivity.
  - pose proof (proj1 (update_contact_message_effect Ref.libs RefShop.bson
                         RefShop.models id_a
                         {| cu_is_read := Some true; cu_admin_notes := None |}
                         [] [message id_b "Late delivery" true;
                             message id_c "Wholesale" false]
                         (message id_a "Product inquiry" false)
                         H1 ltac:(constructor) H2)) as Hupd.
    refine (eq_trans (f_equal snd Hupd) _). vm_compute. reflexivity.
Defined.

(** Two of the three messages were unread. *)
Example mark_all_read_messages3 :
  modified_count (mark_all_messages_as_read messages3).1 = 2%nat
  ∧ (mark_all_messages_as_read messages3).2
    = [ message id_a "Product inquiry" true;
        message id_b "Late delivery" true;
        message id_c "Wholesale" true ].
Proof. split; vm_compute; reflexivity. Qed.

Lemma product_mutation_needs_login_witness :
  login_user Ref.libs settings1
      {| ul_email := "a@x.com"; ul_password := "pw123456" |} db2 t0
    = Ok {| access_token := user_tok "a@x.com"; token_type := "bearer" |}
  ∧ get_current_user Ref.libs settings1 env_admin (user_tok "a@x.com") db2 t1
    = Ok alice_resolved
  ∧ DELETE_product Ref.libs settings1 env_admin RefShop.bson
      (user_tok "a@x.com") db2 id_b products2 t1
    = delete_product RefShop.bson id_b products2 t1
  ∧ DELETE_product Ref.libs settings1 env_admin RefShop.bson
      (admin_tok "ghost@x.com") db2 id_b products2 t1
    = (Raise user_not_found, products2).
Proof.
  assert (Hlogin : login_user Ref.libs settings1
                     {| ul_email := "a@x.com"; ul_password := "pw123456" |} db2 t0
                   = Ok {| access_token := user_tok "a@x.com"; token_type := "bearer" |})
    by (vm_compute; reflexivity).
  assert (Hnow : t1 ≤ t0 + timedelta_minutes (jwt_expiration_time settings1))
    by (vm_compute; discriminate).
  split; [exact Hlogin|]. split; [vm_compute; reflexivity|].
  destruct (product_mutation_needs_login Ref.libs settings1 env_admin RefShop.bson
              RefShop.models ref_decode_sound ref_decode_complete id_b
              (mkProductUpdate None None None None None None None)
              products2 db2 t0 t1)
    as [Hallowed Hrefused].
  split.
  - refine (proj1 (Hallowed _ _ (doc "65a0" alice "$2b$x$pw123456" 1000000)
                     (set_is_admin alice_resolved false)
                     db2_reachable Hlogin Hnow _ _));
      vm_compute; reflexivity.
  - refine (proj1 (Hrefused (admin_tok "ghost@x.com") user_not_found _)).
    vm_compute. reflexivity.
Defined.
